(** * request.js: the request builder and its middleware dispatch

    A shallow embedding of [src/request.js] (the type classifier [typeOf],
    the two error classes, the builder returned by [requestFactory], and the
    module-level asynchronous function [withMiddleware]) together with the
    properties of the builder's state machine. *)

From Stdlib Require Import ZArith String Ascii List Bool Lia.
From stdpp Require Import base option gmap strings pretty.

Local Open Scope string_scope.
Local Open Scope Z_scope.
Set Warnings "-register-all".

(** ** JavaScript values *)

(** Builder instances live in a heap and are named by their address. *)
Definition loc := positive.

(** A function value is opaque.  [Closure id] is a function written by the
    client (a middleware, say); [Method owner name] is the function object
    stored in property [name] of the builder instance [owner]. *)
Inductive fn_ref :=
| Closure (id : nat)
| Method (owner : loc) (name : string).

(** [Number.isSafeInteger]: the integers that a number holds exactly, and
    that print as their plain decimal digits. *)
Definition isSafeInteger (z : Z) : bool := Z.abs z <=? 9007199254740991.

(** Numbers: the not-a-number value, the two infinities, and the safe
    integers.  (Fractions, and integers beyond 2^53, are outside the
    fragment.) *)
Inductive number :=
| NaN
| Infinity (negative : bool)
| Int (z : Z) (safe : isSafeInteger z = true).

(** The fragment of JavaScript values the builder is exercised with.  An
    object is plain (it redefines none of [toString], [valueOf], [toJSON])
    and is given as the list of its own enumerable string-keyed properties,
    in property order; arrays and objects are finite trees.  A big integer
    is any integer. *)
Inductive jsval :=
| VUndefined
| VNull
| VBool (b : bool)
| VNumber (n : number)
| VString (s : string)
| VSymbol (description : string)
| VFunction (f : fn_ref)
| VArray (elems : list jsval)
| VObject (props : list (string * jsval))
| VBigInt (z : Z).

(** What a [throw] carries.  The two error classes of the module keep the
    message computed by their constructor. *)
Inductive thrown :=
| InvalidRequestHeader (message : string)
| InvalidBody (message : string)
| TypeError
| Raised (v : jsval).

(** Completion of a synchronous evaluation. *)
Inductive completion (A : Type) :=
| Normal (a : A)
| Throw (e : thrown).
Arguments Normal {A} a.
Arguments Throw {A} e.

Definition cbind {A B} (c : completion A) (k : A -> completion B) : completion B :=
  match c with
  | Normal a => k a
  | Throw e => Throw e
  end.

(** ** Platform operations used by the module *)

(** The [typeof] operator. *)
Definition js_typeof (v : jsval) : string :=
  match v with
  | VUndefined => "undefined"
  | VNull => "object"
  | VBool _ => "boolean"
  | VNumber _ => "number"
  | VString _ => "string"
  | VSymbol _ => "symbol"
  | VFunction _ => "function"
  | VArray _ => "object"
  | VObject _ => "object"
  | VBigInt _ => "bigint"
  end.

Definition Array_isArray (v : jsval) : bool :=
  match v with
  | VArray _ => true
  | _ => false
  end.

(** Truthiness, as tested by [if] and [||]. *)
Definition truthy (v : jsval) : bool :=
  match v with
  | VUndefined | VNull => false
  | VBool b => b
  | VNumber NaN => false
  | VNumber (Int z _) => negb (z =? 0)
  | VNumber (Infinity _) => true
  | VString s => negb (s =? "")%string
  | VSymbol _ | VFunction _ | VArray _ | VObject _ => true
  | VBigInt z => negb (z =? 0)
  end.

(** [a || b] on values that are already evaluated. *)
Definition js_or (a b : jsval) : jsval := if truthy a then a else b.

(** [Number.prototype.toString]: a safe integer prints as its decimal
    digits, with a minus sign when it is negative. *)
Definition number_toString (n : number) : string :=
  match n with
  | NaN => "NaN"
  | Infinity false => "Infinity"
  | Infinity true => "-Infinity"
  | Int z _ => pretty z
  end.

(** The source text of a function, which is what converting a function to a
    string yields, is left to the platform. *)
Section ToString.

Variable function_source : fn_ref -> string.

(** [Array.prototype.join] with a comma, given the printer of one element:
    undefined and null elements print as nothing. *)
Fixpoint join_elements (print : jsval -> completion string) (l : list jsval)
  : completion string :=
  match l with
  | [] => Normal ""
  | x :: rest =>
      cbind (match x with
             | VUndefined | VNull => Normal ""
             | _ => print x
             end)
        (fun s =>
           match rest with
           | [] => Normal s
           | _ => cbind (join_elements print rest) (fun r => Normal (s +:+ "," +:+ r))
           end)
  end.

(** The abstract operation ToString, for the values of the fragment: a
    symbol cannot be converted, an array joins its elements, a plain object
    prints as its class tag, a big integer as its decimal digits. *)
Fixpoint ToString (v : jsval) : completion string :=
  match v with
  | VUndefined => Normal "undefined"
  | VNull => Normal "null"
  | VBool true => Normal "true"
  | VBool false => Normal "false"
  | VNumber n => Normal (number_toString n)
  | VString s => Normal s
  | VSymbol _ => Throw TypeError
  | VFunction f => Normal (function_source f)
  | VArray elems => join_elements ToString elems
  | VObject _ => Normal "[object Object]"
  | VBigInt z => Normal (pretty z)
  end.

(** A template literal: the pieces are literal text or substitutions, and the
    substitutions are converted with ToString from left to right. *)
Fixpoint template (pieces : list (string + jsval)) : completion string :=
  match pieces with
  | [] => Normal ""
  | inl text :: rest => cbind (template rest) (fun r => Normal (text +:+ r))
  | inr v :: rest =>
      cbind (ToString v) (fun s => cbind (template rest) (fun r => Normal (s +:+ r)))
  end.

(** The abstract operation ToPrimitive with no preferred type: a primitive
    is its own primitive; the [valueOf] of an array, a function or a plain
    object returns the object itself, so that its [toString] decides. *)
Definition ToPrimitive (v : jsval) : completion jsval :=
  match v with
  | VFunction f => Normal (VString (function_source f))
  | VArray elems => cbind (join_elements ToString elems) (fun s => Normal (VString s))
  | VObject _ => Normal (VString "[object Object]")
  | _ => Normal v
  end.

(** ['text' + v] for a string left operand: [v] is converted to a
    primitive; the left operand being a string, the primitive is converted
    to a string and appended. *)
Definition string_plus (text : string) (v : jsval) : completion string :=
  cbind (ToPrimitive v) (fun p => cbind (ToString p) (fun s => Normal (text +:+ s))).

End ToString.

(** ** JSON.stringify

    The serialiser of the platform is a parameter of the module (see the
    section [Platform]); the one below is the algorithm of the language,
    with no replacer and no indentation, for the values of the fragment.  A
    big integer cannot be serialised: the call throws a TypeError. *)

Definition hex_digit (n : nat) : ascii :=
  ascii_of_nat (if Nat.ltb n 10 then 48 + n else 87 + n).

(** The escape of one character inside a JSON string. *)
Definition json_escape (c : ascii) : string :=
  let n := nat_of_ascii c in
  let bs := String "092"%char EmptyString in
  if Nat.eqb n 34 then bs +:+ String "034"%char EmptyString
  else if Nat.eqb n 92 then bs +:+ bs
  else if Nat.eqb n 8 then bs +:+ "b"
  else if Nat.eqb n 9 then bs +:+ "t"
  else if Nat.eqb n 10 then bs +:+ "n"
  else if Nat.eqb n 12 then bs +:+ "f"
  else if Nat.eqb n 13 then bs +:+ "r"
  else if Nat.ltb n 32 then
    bs +:+ "u00" +:+ String (hex_digit (Nat.div n 16)) (String (hex_digit (Nat.modulo n 16)) EmptyString)
  else String c EmptyString.

Fixpoint json_escape_all (s : string) : string :=
  match s with
  | EmptyString => EmptyString
  | String c rest => json_escape c +:+ json_escape_all rest
  end.

Definition QuoteJSONString (s : string) : string :=
  String "034"%char (json_escape_all s +:+ String "034"%char EmptyString).

(** The elements of an array, given the serialiser of one value: an element
    without a serialisation prints as [null]; the first element that cannot
    be serialised ends the whole serialisation. *)
Fixpoint json_items (ser : jsval -> completion (option string)) (l : list jsval)
  : completion string :=
  match l with
  | [] => Normal ""
  | x :: rest =>
      cbind (ser x)
        (fun r =>
           let s := match r with
                    | Some s => s
                    | None => "null"
                    end in
           match rest with
           | [] => Normal s
           | _ => cbind (json_items ser rest) (fun t => Normal (s +:+ "," +:+ t))
           end)
  end.

(** The members of an object: a property without a serialisation is left
    out. *)
Fixpoint json_members (ser : jsval -> completion (option string))
  (l : list (string * jsval)) (first : bool) : completion string :=
  match l with
  | [] => Normal ""
  | (k, x) :: rest =>
      cbind (ser x)
        (fun r =>
           match r with
           | Some s =>
               cbind (json_members ser rest false)
                 (fun t =>
                    Normal ((if first then "" else ",") +:+ QuoteJSONString k +:+ ":"
                            +:+ s +:+ t))
           | None => json_members ser rest first
           end)
  end.

(** Serialisation of one value; [None] is the "undefined" result. *)
Fixpoint SerializeJSONProperty (v : jsval) : completion (option string) :=
  match v with
  | VUndefined | VSymbol _ | VFunction _ => Normal None
  | VNull => Normal (Some "null")
  | VBool true => Normal (Some "true")
  | VBool false => Normal (Some "false")
  | VNumber (Int z _) => Normal (Some (pretty z))
  | VNumber _ => Normal (Some "null")
  | VString s => Normal (Some (QuoteJSONString s))
  | VArray elems =>
      cbind (json_items SerializeJSONProperty elems)
        (fun s => Normal (Some ("[" +:+ s +:+ "]")))
  | VObject props =>
      cbind (json_members SerializeJSONProperty props true)
        (fun s => Normal (Some ("{" +:+ s +:+ "}")))
  | VBigInt _ => Throw TypeError
  end.

(** [JSON.stringify(v)] on the values of the fragment. *)
Definition example_JSON_stringify (v : jsval) : completion jsval :=
  cbind (SerializeJSONProperty v)
    (fun r =>
       Normal (match r with
               | Some s => VString s
               | None => VUndefined
               end)).

(** ** The type classifier *)

(** The object of predicates returned by [typeOf]; each closure of the
    source is a nullary function of [actualType], kept here as its value. *)
Record type_probe := {
  isNaN : bool;
  isArray : bool;
  isSymbol : bool;
  isString : bool;
  isObject : bool;
  isNumber : bool;
  isBoolean : bool;
  isNotString : bool;
  isFunction : bool;
  isUndefinedOrNull : bool
}.

(** The tag computed in the first half of [typeOf]. *)
Definition actualType (value : jsval) : string :=
  match value with
  | VNull => "null"
  | _ =>
      if Array_isArray value then "array"
      else if (js_typeof value =? "number")%string
              && (match value with
                  | VNumber n => (number_toString n =? "NaN")%string
                  | _ => false
                  end)
      then "NaN"
      else js_typeof value
  end.

Definition typeOf (value : jsval) : type_probe :=
  let actualType := actualType value in
  {| isNaN := (actualType =? "NaN")%string;
     isArray := (actualType =? "array")%string;
     isSymbol := (actualType =? "symbol")%string;
     isString := (actualType =? "string")%string;
     isObject := (actualType =? "object")%string;
     isNumber := (actualType =? "number")%string;
     isBoolean := (actualType =? "boolean")%string;
     isNotString := negb (actualType =? "string")%string;
     isFunction := (actualType =? "function")%string;
     isUndefinedOrNull :=
       (actualType =? "null")%string || (actualType =? "undefined")%string |}.

(** ** Objects as property lists *)

(** Own-property lookup. *)
Fixpoint obj_lookup (k : string) (o : list (string * jsval)) : option jsval :=
  match o with
  | [] => None
  | (k', v) :: rest => if (k' =? k)%string then Some v else obj_lookup k rest
  end.

(** [o[k]] for a key that the prototype chain does not define: the own
    property, or undefined. *)
Definition obj_get (k : string) (o : list (string * jsval)) : jsval :=
  match obj_lookup k o with
  | Some v => v
  | None => VUndefined
  end.

(** [{...o, [k]: v}]: the property is overwritten where it stands, or added
    after the others.  (JavaScript lists integer-like keys first; nothing
    below depends on the order of the properties written this way.) *)
Fixpoint obj_set (k : string) (v : jsval) (o : list (string * jsval))
  : list (string * jsval) :=
  match o with
  | [] => [(k, v)]
  | (k', v') :: rest =>
      if (k' =? k)%string then (k, v) :: rest else (k', v') :: obj_set k v rest
  end.

(** Reading property [k] off a value [o], for a key that neither the wrapper
    objects nor the built-in prototypes define (such as the two slot names of
    a middleware configuration): undefined and null have no properties at
    all, an object answers with its own property. *)
Definition GetV (o : jsval) (k : string) : completion jsval :=
  match o with
  | VUndefined | VNull => Throw TypeError
  | VObject props => Normal (obj_get k props)
  | _ => Normal VUndefined
  end.

(** [s.startsWith(p)]; only a string has the method. *)
Definition startsWith (s : jsval) (p : string) : completion bool :=
  match s with
  | VString s => Normal (String.prefix p s)
  | _ => Throw TypeError
  end.

(** ** The builder instance and the heap *)

(** The object [__middlewares]: each slot holds null or what was
    registered. *)
Record middlewares := {
  body : jsval;
  header : jsval
}.

(** The data properties of the object literal returned by the binder.
    [baseURL] is a string because [requestFactory] refuses anything else; the
    closure variable of the same name and the property are one here. *)
Record builder := {
  baseURL : string;
  apiVersion : jsval;
  __path : jsval;
  __headers : list (string * jsval);
  __body : jsval;
  __middlewares : middlewares
}.

(** The instance has no property called [_path]: reading it gives
    undefined. *)
Definition _path (b : builder) : jsval := VUndefined.

(** The value held by a promise once it settles, if it ever does. *)
Inductive settlement :=
| Fulfilled (v : jsval)
| Rejected (e : thrown)
| Pending.

(** What a call hands back: a plain value or a promise. *)
Inductive returned :=
| Plain (v : jsval)
| Promise (s : settlement).

(** Completion of a call to a function of the client or of the platform. *)
Inductive call_result :=
| Returns (r : returned)
| Throws (e : thrown).

(** The calls that leave the module, in the order they are made. *)
Inductive event :=
| HeaderMiddlewareCalled (f : jsval) (arg : jsval)
| BodyMiddlewareCalled (f : jsval) (arg : jsval)
| TransportCalled (url : string) (init : jsval).

(** The instances alive, and the calls made so far. *)
Record world := {
  heap : gmap loc builder;
  log : list event
}.

(** State and exception monad of the synchronous code. *)
Definition M (A : Type) : Type := world -> completion A * world.

Definition ret {A} (a : A) : M A := fun w => (Normal a, w).

Definition throw {A} (e : thrown) : M A := fun w => (Throw e, w).

Definition bind {A B} (m : M A) (k : A -> M B) : M B :=
  fun w =>
    match m w with
    | (Normal a, w') => k a w'
    | (Throw e, w') => (Throw e, w')
    end.

Definition lift {A} (c : completion A) : M A := fun w => (c, w).

Declare Scope js_scope.
Delimit Scope js_scope with js.
Notation "x <- m ;; k" := (bind m (fun x => k))
  (at level 100, m at next level, right associativity) : js_scope.
Notation "m ;;; k" := (bind m (fun _ => k))
  (at level 100, right associativity) : js_scope.
Local Open Scope js_scope.

(** Reading the instance behind [this]. *)
Definition deref (this : loc) : M builder :=
  fun w =>
    match heap w !! this with
    | Some b => (Normal b, w)
    | None => (Throw TypeError, w)
    end.

Definition set_obj (this : loc) (b : builder) (w : world) : world :=
  {| heap := <[this := b]> (heap w); log := log w |}.

(** Updating the instance behind [this] in place. *)
Definition modify (this : loc) (f : builder -> builder) : M unit :=
  b <- deref this ;;
  fun w => (Normal tt, set_obj this (f b) w).

Definition emit (e : event) : M unit :=
  fun w => (Normal tt, {| heap := heap w; log := log w ++ [e] |}).

Definition set_headers (h : list (string * jsval)) (b : builder) : builder :=
  {| baseURL := baseURL b; apiVersion := apiVersion b; __path := __path b;
     __headers := h; __body := __body b; __middlewares := __middlewares b |}.

Definition set_body (v : jsval) (b : builder) : builder :=
  {| baseURL := baseURL b; apiVersion := apiVersion b; __path := __path b;
     __headers := __headers b; __body := v; __middlewares := __middlewares b |}.

Definition set_middlewares (m : middlewares) (b : builder) : builder :=
  {| baseURL := baseURL b; apiVersion := apiVersion b; __path := __path b;
     __headers := __headers b; __body := __body b; __middlewares := m |}.

Definition set_header_slot (f : jsval) (m : middlewares) : middlewares :=
  {| body := body m; header := f |}.

Definition set_body_slot (f : jsval) (m : middlewares) : middlewares :=
  {| body := f; header := header m |}.

(** ** The module *)

(** The map of HTTP methods. *)
Record http_methods := {
  GET : string;
  PUT : string;
  POST : string;
  DELETE : string
}.

Definition HTTP_METHOD : http_methods :=
  {| GET := "GET"; PUT := "PUT"; POST := "POST"; DELETE := "DELETE" |}.

(** An asynchronous function body either runs to its end, fails, or stays
    suspended at an [await] whose promise never settles. *)
Inductive step (A : Type) :=
| Done (a : A)
| Failed (e : thrown)
| Suspended.
Arguments Done {A} a.
Arguments Failed {A} e.
Arguments Suspended {A}.

Definition Async (A : Type) : Type := world -> step A * world.

Definition abind {A B} (m : Async A) (k : A -> Async B) : Async B :=
  fun w =>
    match m w with
    | (Done a, w') => k a w'
    | (Failed e, w') => (Failed e, w')
    | (Suspended, w') => (Suspended, w')
    end.

Definition aret {A} (a : A) : Async A := fun w => (Done a, w).

(** Synchronous code inside an asynchronous body. *)
Definition sync {A} (m : M A) : Async A :=
  fun w =>
    match m w with
    | (Normal a, w') => (Done a, w')
    | (Throw e, w') => (Failed e, w')
    end.

(** [await x]. *)
Definition await (x : returned) : Async jsval :=
  fun w =>
    match x with
    | Plain v => (Done v, w)
    | Promise (Fulfilled v) => (Done v, w)
    | Promise (Rejected e) => (Failed e, w)
    | Promise Pending => (Suspended, w)
    end.

(** Calling an [async function]: the caller gets a promise at once; the
    promise is given here with the way it eventually settles, and the world
    is the one reached when the body has gone as far as it ever goes. *)
Definition async (body : Async returned) : M returned :=
  fun w =>
    match body w with
    | (Done (Plain v), w') => (Normal (Promise (Fulfilled v)), w')
    | (Done (Promise s), w') => (Normal (Promise s), w')
    | (Failed e, w') => (Normal (Promise (Rejected e)), w')
    | (Suspended, w') => (Normal (Promise Pending), w')
    end.

Notation "x <~ m ;; k" := (abind m (fun x => k))
  (at level 100, m at next level, right associativity) : js_scope.
Notation "m ~;; k" := (abind m (fun _ => k))
  (at level 100, right associativity) : js_scope.

(** The six terminal dispatchers of an instance. *)
Inductive dispatcher :=
| D_get
| D_post
| D_postJSON
| D_put
| D_putJSON
| D_delete.

(** The six fluent mutators of an instance, with their argument. *)
Inductive mutation :=
| M_withHeader (key value : jsval)
| M_withAuthorization (token : jsval)
| M_withBearerAuthorization (token : jsval)
| M_withBody (body : jsval)
| M_withContentType (type : jsval)
| M_withMiddleware (config : jsval).

(** ** A running example

    A platform for evaluating the module: closure 0 is a header middleware
    that signs the request and answers with a promise that fulfils, closure 1
    a body middleware that returns at once, closure 2 answers with a promise
    that rejects, closure 3 throws, and any other function never settles. *)

Definition example_source (f : fn_ref) : string := "function () { }".

Definition example_call (f : fn_ref) (arg : jsval) (b : builder)
  : call_result * builder :=
  match f with
  | Closure 0 =>
      (Returns (Promise (Fulfilled VUndefined)),
       set_headers (obj_set "X-Signature" (VString "abc") (__headers b)) b)
  | Closure 1 => (Returns (Plain VUndefined), b)
  | Closure 2 => (Returns (Promise (Rejected (Raised (VString "denied")))), b)
  | Closure 3 => (Throws (Raised (VString "boom")), b)
  | _ => (Returns (Promise Pending), b)
  end.

Definition example_fetch (url : string) (init : jsval) : call_result :=
  Returns (Promise (Fulfilled (VObject [("status", VNumber (Int 200 eq_refl))]))).

(** The instance bound to ["/users"] under ["https://api.x.com"], as the
    binder creates it. *)
Definition users : builder :=
  {| baseURL := "https://api.x.com"; apiVersion := VString "v1";
     __path := VString "/users"; __headers := []; __body := VNull;
     __middlewares := {| body := VNull; header := VNull |} |}.

(** A world holding one instance, at address 1, and no call made yet. *)
Definition world_of (b : builder) : world :=
  {| heap := {[ 1%positive := b ]}; log := [] |}.

Definition example_world : world := world_of users.

(** The same instance after [withContentType('application/json')] and
    [withBody({a: 1})]. *)
Definition json_users : builder :=
  set_body (VObject [("a", VNumber (Int 1 eq_refl))])
    (set_headers [("Content-Type", VString "application/json")] users).

(** The JSON text of [{a: 1}], written out: an opening brace, the key
    between two double quotes, a colon, the digit and a closing brace. *)
Definition double_quote : string := String "034"%char EmptyString.

Definition text_a1 : string :=
  "{" +:+ double_quote +:+ "a" +:+ double_quote +:+ ":1}".

(** The same instance after [withContentType('application/json')] and
    [withBody(10n)]. *)
Definition bigint_users : builder :=
  set_body (VBigInt 10)
    (set_headers [("Content-Type", VString "application/json")] users).

(** The same instance after [withContentType('text/plain')] and
    [withBody({a: 1})]. *)
Definition plain_users : builder :=
  set_body (VObject [("a", VNumber (Int 1 eq_refl))])
    (set_headers [("Content-Type", VString "text/plain")] users).

(** The same instance after [withContentType('application/json;
    charset=utf-8')] and [withBody({a: 1})]. *)
Definition charset_users : builder :=
  set_body (VObject [("a", VNumber (Int 1 eq_refl))])
    (set_headers [("Content-Type", VString "application/json; charset=utf-8")] users).

(** The same instance after [withBody({a: 1})] alone. *)
Definition body_only_users : builder :=
  set_body (VObject [("a", VNumber (Int 1 eq_refl))]) users.

(** The same instance with closure 0 as header middleware and closure 1 as
    body middleware. *)
Definition signed_users : builder :=
  set_middlewares {| body := VFunction (Closure 1); header := VFunction (Closure 0) |}
    users.

(** The same instance with closure 2, which rejects, as header middleware. *)
Definition denied_users : builder :=
  set_middlewares {| body := VNull; header := VFunction (Closure 2) |} users.

(** A second instance of the same binder, bound to ["/orders"]. *)
Definition orders : builder :=
  {| baseURL := "https://api.x.com"; apiVersion := VString "v1";
     __path := VString "/orders"; __headers := []; __body := VNull;
     __middlewares := {| body := VNull; header := VNull |} |}.

(** The world holding both instances. *)
Definition two_instances : world := set_obj 2%positive orders example_world.

(** A chain of fluent calls, the second of which throws. *)
Definition example_chain : list mutation :=
  [M_withHeader (VString "Accept") (VString "text/plain");
   M_withBody VNull;
   M_withMiddleware (VObject [("header", VFunction (Closure 0))]);
   M_withBearerAuthorization (VNumber (Int 7 eq_refl))].

Section Platform.

(** Four things are the platform's or the client's: the source text of a
    function, what a function value does when a dispatch calls it with one
    argument (its completion, and the state of the dispatching instance when
    control comes back, since a middleware holds a live reference to the
    piece of state it is given), the transport [fetch], and the serialiser
    [JSON.stringify], which returns a text (or undefined) or throws. *)
Variable function_source : fn_ref -> string.
Variable call_function : fn_ref -> jsval -> builder -> call_result * builder.
Variable fetch : string -> jsval -> call_result.
Variable JSON_stringify : jsval -> completion jsval.

Abbreviation ToString := (ToString function_source).
Abbreviation template := (template function_source).
Abbreviation string_plus := (string_plus function_source).

(** [new InvalidRequestHeader(key, value)]: the constructor interpolates both
    values into the message. *)
Definition new_InvalidRequestHeader (key value : jsval) : completion thrown :=
  cbind (template [inl "Invalid Header for the request. Found "; inr key;
                   inl "/"; inr value])
    (fun message => Normal (InvalidRequestHeader message)).

(** [new InvalidBody(body)]. *)
Definition new_InvalidBody (body : jsval) : completion thrown :=
  cbind (template [inl "Invalid body. Found "; inr body])
    (fun message => Normal (InvalidBody message)).

(** [f(arg)] for a slot value [f], called on behalf of instance [ctx]. *)
Definition invoke (ctx : loc) (f : jsval) (arg : jsval) : M returned :=
  match f with
  | VFunction fr =>
      b <- deref ctx ;;
      let '(r, b') := call_function fr arg b in
      (fun w => (Normal tt, set_obj ctx b' w)) ;;;
      match r with
      | Returns x => ret x
      | Throws e => throw e
      end
  | _ => throw TypeError
  end.

(** The module-level [async function withMiddleware(ctx, cb)].  The
    middlewares object is read through the instance each time, which is what
    the constant [middlewares] of the source denotes as long as the object is
    only updated in place. *)
Definition async_withMiddleware (ctx : loc) (cb : M returned) : M returned :=
  async (
    b <~ sync (deref ctx) ;;
    (if truthy (header (__middlewares b)) then
       r <~ sync (emit (HeaderMiddlewareCalled (header (__middlewares b))
                          (VObject (__headers b))) ;;;
                  invoke ctx (header (__middlewares b)) (VObject (__headers b))) ;;
       await r ~;; aret tt
     else aret tt) ~;;
    b <~ sync (deref ctx) ;;
    (if truthy (body (__middlewares b)) then
       r <~ sync (emit (BodyMiddlewareCalled (body (__middlewares b)) (__body b)) ;;;
                  invoke ctx (body (__middlewares b)) (__body b)) ;;
       await r ~;; aret tt
     else aret tt) ~;;
    sync cb).

(** *** The methods of the instance *)

(** [withHeader(key, value)]: the header object is replaced by a copy with
    the pair written in. *)
Definition withHeader (this : loc) (key value : jsval) : M loc :=
  if isNotString (typeOf key) || isNotString (typeOf value) then
    e <- lift (new_InvalidRequestHeader key value) ;;
    throw e
  else
    k <- lift (ToString key) ;;
    modify this (fun b => set_headers (obj_set k value (__headers b)) b) ;;;
    ret this.

(** [withAuthorization(token)]. *)
Definition withAuthorization (this : loc) (token : jsval) : M loc :=
  withHeader this (VString "Authorization") token.

(** [withBearerAuthorization(token)]: the token is interpolated after the
    text "Bearer ". *)
Definition withBearerAuthorization (this : loc) (token : jsval) : M loc :=
  bearerToken <- lift (template [inl "Bearer "; inr token]) ;;
  withAuthorization this (VString bearerToken).

(** [withBody(body)]. *)
Definition withBody (this : loc) (body : jsval) : M loc :=
  if isUndefinedOrNull (typeOf body) then
    e <- lift (new_InvalidBody body) ;;
    throw e
  else
    modify this (set_body body) ;;;
    ret this.

(** [withContentType(type)]. *)
Definition withContentType (this : loc) (type : jsval) : M loc :=
  withHeader this (VString "Content-Type") type.

(** The method [withMiddleware({ header, body })]: the parameter is a
    pattern, so the two properties are read off the argument before the body
    runs; the slots of the middlewares object are assigned in place. *)
Definition withMiddleware (this : loc) (config : jsval) : M loc :=
  header <- lift (GetV config "header") ;;
  body <- lift (GetV config "body") ;;
  (if isFunction (typeOf header) then
     modify this (fun b => set_middlewares (set_header_slot header (__middlewares b)) b)
   else ret tt) ;;;
  (if isFunction (typeOf body) then
     modify this (fun b => set_middlewares (set_body_slot body (__middlewares b)) b)
   else ret tt) ;;;
  ret this.

(** [_parameters(method)]: the record handed to the transport, with the
    key [body] added by a second object literal when the body is included;
    a serialisation that throws ends the call. *)
Definition _parameters (this : loc) (method : jsval) : M jsval :=
  b <- deref this ;;
  let contentType := obj_get "Content-Type" (__headers b) in
  let isBodyIncluded :=
    negb (isUndefinedOrNull (typeOf (__body b))) && isString (typeOf contentType) in
  let requestPayload := [("method", method); ("headers", VObject (__headers b))] in
  if isBodyIncluded then
    json <- lift (startsWith contentType "application/json") ;;
    payload <- lift (if json : bool then JSON_stringify (__body b)
                     else Normal (__body b)) ;;
    ret (VObject (obj_set "body" payload requestPayload))
  else ret (VObject requestPayload).

(** The continuation [() => fetch(url, this._parameters)] of [_call]: it
    reads the property [_parameters] of the instance, a function object, and
    hands that to the transport. *)
Definition continuation (this : loc) (url : string) : M returned :=
  let init := VFunction (Method this "_parameters") in
  emit (TransportCalled url init) ;;;
  match fetch url init with
  | Returns r => ret r
  | Throws e => throw e
  end.

(** [_call(method, path)].  The argument [method] is not used. *)
Definition _call (this : loc) (method : jsval) (path : jsval) : M returned :=
  b <- deref this ;;
  url <- lift (if isString (typeOf path)
               then template [inr (VString (baseURL b)); inr path]
               else template [inr (VString (baseURL b))]) ;;
  async_withMiddleware this (continuation this url).

(** The dispatchers.  [postJSON] and [putJSON] resolve the path themselves
    and hand it to [post] and [put], which resolve it again. *)
Definition post (this : loc) (path : jsval) : M returned :=
  b <- deref this ;;
  _call this (VString (POST HTTP_METHOD)) (js_or path (__path b)).

Definition postJSON (this : loc) (path : jsval) : M returned :=
  r <- withContentType this (VString "application/json") ;;
  b <- deref this ;;
  post r (js_or path (__path b)).

Definition put (this : loc) (path : jsval) : M returned :=
  b <- deref this ;;
  _call this (VString (PUT HTTP_METHOD)) (js_or path (__path b)).

Definition putJSON (this : loc) (path : jsval) : M returned :=
  r <- withContentType this (VString "application/json") ;;
  b <- deref this ;;
  put r (js_or path (__path b)).

Definition get (this : loc) (path : jsval) : M returned :=
  b <- deref this ;;
  _call this (VString (GET HTTP_METHOD)) (js_or path (__path b)).

(** [delete] reads [this._path], with one underscore. *)
Definition delete (this : loc) (path : jsval) : M returned :=
  b <- deref this ;;
  _call this (VString (DELETE HTTP_METHOD)) (js_or path (_path b)).

(** The binder returned by the factory: a fresh instance per call. *)
Definition bind_URI (baseURL : string) (apiVersion : jsval) (URI : jsval) : M loc :=
  fun w =>
    let this := fresh (dom (heap w)) in
    (Normal this,
     set_obj this
       {| baseURL := baseURL; apiVersion := apiVersion; __path := URI;
          __headers := []; __body := VNull;
          __middlewares := {| body := VNull; header := VNull |} |} w).

(** [requestFactory(baseURL, apiVersion)]. *)
Definition requestFactory (baseURL apiVersion : jsval) : completion (jsval -> M loc) :=
  if negb (js_typeof baseURL =? "string")%string then Throw TypeError
  else
    match baseURL with
    | VString base => Normal (bind_URI base apiVersion)
    | _ => Throw TypeError
    end.

(** ** Vocabulary of the properties *)

(** The effective path of a dispatch, in the words of the specification:
    the explicit argument when it is given and not falsy, the stored default
    path otherwise. *)
Definition effective_path (explicit : jsval) (b : builder) : jsval :=
  if truthy explicit then explicit else __path b.

(** The request URL, in the words of the specification: the base URL
    followed by the path when the path is a string, the base URL alone
    otherwise. *)
Definition request_url (b : builder) (path : jsval) : string :=
  match path with
  | VString p => baseURL b +:+ p
  | _ => baseURL b
  end.

(** Calling the dispatcher [d] of the instance. *)
Definition dispatch (d : dispatcher) (this : loc) (path : jsval) : M returned :=
  match d with
  | D_get => get this path
  | D_post => post this path
  | D_postJSON => postJSON this path
  | D_put => put this path
  | D_putJSON => putJSON this path
  | D_delete => delete this path
  end.

(** The HTTP method the dispatcher passes to [_call]. *)
Definition method_of (d : dispatcher) : string :=
  match d with
  | D_get => GET HTTP_METHOD
  | D_post | D_postJSON => POST HTTP_METHOD
  | D_put | D_putJSON => PUT HTTP_METHOD
  | D_delete => DELETE HTTP_METHOD
  end.

(** The instance as the dispatcher leaves it before the call goes out: the
    two JSON dispatchers set the content type first. *)
Definition prepared (d : dispatcher) (b : builder) : builder :=
  match d with
  | D_postJSON | D_putJSON =>
      set_headers (obj_set "Content-Type" (VString "application/json") (__headers b)) b
  | _ => b
  end.

(** The path the dispatcher hands to [_call]. *)
Definition path_used (d : dispatcher) (path : jsval) (b : builder) : jsval :=
  match d with
  | D_delete => js_or path (_path b)
  | _ => js_or path (__path b)
  end.

(** What is awaited resolves: it is no promise, or a promise that fulfils. *)
Definition resolves (x : returned) : Prop :=
  match x with
  | Plain _ | Promise (Fulfilled _) => True
  | Promise (Rejected _) | Promise Pending => False
  end.

(** The middleware [f], called with [arg] while the instance is [b], runs to
    completion and leaves the instance as [b']. *)
Definition completes (f arg : jsval) (b b' : builder) : Prop :=
  exists fr x, f = VFunction fr /\ call_function fr arg b = (Returns x, b') /\ resolves x.

(** The middleware [f], called with [arg] while the instance is [b], fails
    with [e]: it throws, or the promise it returns rejects.  (A slot value
    that is no function cannot even be called.) *)
Definition fails (f arg : jsval) (b : builder) (e : thrown) : Prop :=
  match f with
  | VFunction fr =>
      exists b', call_function fr arg b = (Throws e, b')
                 \/ call_function fr arg b = (Returns (Promise (Rejected e)), b')
  | _ => e = TypeError
  end.

(** The header stage of a dispatch takes the instance from [b] to [b1]:
    there is no header middleware, or it completes. *)
Definition header_stage (b b1 : builder) : Prop :=
  let f := header (__middlewares b) in
  (truthy f = false /\ b1 = b)
  \/ (truthy f = true /\ completes f (VObject (__headers b)) b b1).

(** The body stage, likewise. *)
Definition body_stage (b1 b2 : builder) : Prop :=
  let g := body (__middlewares b1) in
  (truthy g = false /\ b2 = b1)
  \/ (truthy g = true /\ completes g (__body b1) b1 b2).

(** *** A closed form of the dispatch *)

(** How far the guarded call-and-await of a slot value gets, and the
    instance it leaves: a falsy slot is passed over. *)
Definition stage_outcome (f arg : jsval) (b : builder) : step unit * builder :=
  if truthy f then
    match f with
    | VFunction fr =>
        let '(r, b') := call_function fr arg b in
        (match r with
         | Returns (Plain _) | Returns (Promise (Fulfilled _)) => Done tt
         | Returns (Promise (Rejected e)) => Failed e
         | Returns (Promise Pending) => Suspended
         | Throws e => Failed e
         end, b')
    | _ => (Failed TypeError, b)
    end
  else (Done tt, b).

(** The way the promise of the dispatch settles, given what the transport
    call comes to. *)
Definition settle (r : call_result) : settlement :=
  match r with
  | Returns (Plain v) => Fulfilled v
  | Returns (Promise s) => s
  | Throws e => Rejected e
  end.

(** The settlement, the final instance and the calls of a dispatch to [url]
    from an instance [b], written out stage by stage. *)
Definition dispatch_summary (this : loc) (b : builder) (url : string)
  : settlement * builder * list event :=
  let f := header (__middlewares b) in
  let hs := if truthy f then [HeaderMiddlewareCalled f (VObject (__headers b))] else [] in
  match stage_outcome f (VObject (__headers b)) b with
  | (Done _, b1) =>
      let g := body (__middlewares b1) in
      let bs := if truthy g then [BodyMiddlewareCalled g (__body b1)] else [] in
      match stage_outcome g (__body b1) b1 with
      | (Done _, b2) =>
          let init := VFunction (Method this "_parameters") in
          (settle (fetch url init), b2, (hs ++ bs ++ [TransportCalled url init])%list)
      | (Failed e, b2) => (Rejected e, b2, (hs ++ bs)%list)
      | (Suspended, b2) => (Pending, b2, (hs ++ bs)%list)
      end
  | (Failed e, b1) => (Rejected e, b1, hs)
  | (Suspended, b1) => (Pending, b1, hs)
  end.

(** *** Fluent calls *)

(** Making the fluent call [m] on the instance. *)
Definition mutate (m : mutation) (this : loc) : M loc :=
  match m with
  | M_withHeader key value => withHeader this key value
  | M_withAuthorization token => withAuthorization this token
  | M_withBearerAuthorization token => withBearerAuthorization this token
  | M_withBody body => withBody this body
  | M_withContentType type => withContentType this type
  | M_withMiddleware config => withMiddleware this config
  end.

(** A client that makes the calls [ms] on the instance one after the other,
    and goes on after a call that throws. *)
Fixpoint chain (ms : list mutation) (this : loc) (w : world) : world :=
  match ms with
  | [] => w
  | m :: rest => chain rest this (snd (mutate m this w))
  end.

(** A slot of the middlewares object holds null or a function. *)
Definition slot_ok (v : jsval) : Prop := v = VNull \/ exists f, v = VFunction f.

(** The state the fluent calls keep an instance in: the header object maps
    distinct keys to strings, the body is null (not set) or neither null nor
    undefined, and both middleware slots hold null or a function. *)
Definition well_formed (b : builder) : Prop :=
  List.NoDup (map fst (__headers b))
  /\ List.Forall (fun kv => exists s, snd kv = VString s) (__headers b)
  /\ (__body b = VNull \/ isUndefinedOrNull (typeOf (__body b)) = false)
  /\ slot_ok (header (__middlewares b))
  /\ slot_ok (body (__middlewares b)).

(** The promise of an asynchronous function that ends by returning what a
    call [c] comes to. *)
Definition settle_completion (c : completion returned) : settlement :=
  match c with
  | Normal (Plain v) => Fulfilled v
  | Normal (Promise s) => s
  | Throw e => Rejected e
  end.

(** ** Properties *)

(** *** Induction on values *)

(** The induction principle that reaches inside arrays and objects. *)
Lemma jsval_nested_ind (P : jsval -> Prop) :
  P VUndefined -> P VNull -> (forall b, P (VBool b)) -> (forall n, P (VNumber n)) ->
  (forall s, P (VString s)) -> (forall d, P (VSymbol d)) -> (forall f, P (VFunction f)) ->
  (forall l, List.Forall P l -> P (VArray l)) ->
  (forall o, List.Forall (fun kv => P (snd kv)) o -> P (VObject o)) ->
  (forall z, P (VBigInt z)) ->
  forall v, P v.
Proof.
  intros Hu Hn Hb Hnum Hs Hsym Hf Ha Ho Hz.
  fix IH 1.
  intros [| |b|n|s|d|f|l|o|z];
    [exact Hu | exact Hn | apply Hb | apply Hnum | apply Hs | apply Hsym | apply Hf
    | | | apply Hz].
  - apply Ha. induction l as [|x rest IHl]; constructor; [apply IH | exact IHl].
  - apply Ho. induction o as [|[k x] rest IHo]; constructor; [apply IH | exact IHo].
Qed.

Lemma join_elements_throws (print : jsval -> completion string) (l : list jsval) :
  List.Forall (fun x => forall e, print x = Throw e -> e = TypeError) l ->
  forall e, join_elements print l = Throw e -> e = TypeError.
Proof.
  induction 1 as [|x rest Hx _ IH]; simpl; intros e; [discriminate|].
  destruct (match x with VUndefined | VNull => Normal "" | _ => print x end) as [s|e0] eqn:E.
  - simpl. destruct rest as [|y rest']; [discriminate|].
    destruct (join_elements print (y :: rest')) as [r|e1] eqn:E1; simpl; [discriminate|].
    intros [= <-]. apply IH. reflexivity.
  - simpl. intros [= <-].
    destruct x; try discriminate; apply Hx; exact E.
Qed.

(** The only failure of a conversion to string is the TypeError raised for a
    symbol, at the top or inside an array. *)
Lemma ToString_throws (v : jsval) :
  forall e, ToString v = Throw e -> e = TypeError.
Proof.
  induction v as [| |b|n|s|d|f|l IHl|o _|z] using jsval_nested_ind;
    simpl; intros e; try discriminate.
  - destruct b; discriminate.
  - intros [= <-]. reflexivity.
  - apply join_elements_throws. exact IHl.
Qed.

(** *** The classifier *)

Lemma pretty_N_go_not_N (x : N) (s : string) :
  (forall t, s <> String "N" t) -> forall t, pretty_N_go x s <> String "N" t.
Proof.
  revert s. induction (N.lt_wf_0 x) as [x _ IH]; intros s Hs t.
  destruct (N.eq_dec x 0%N) as [->|Hx].
  - rewrite pretty_N_go_0. apply Hs.
  - rewrite pretty_N_go_step by lia. apply IH.
    + apply N.div_lt; lia.
    + intros t'. unfold pretty_N_char. repeat case_match; discriminate.
Qed.

Lemma number_toString_NaN (n : number) :
  (number_toString n =? "NaN")%string = true <-> n = NaN.
Proof.
  split; [|intros ->; reflexivity].
  destruct n as [|[]|z Hz]; simpl; try discriminate; [reflexivity|].
  intros H. apply String.eqb_eq in H. exfalso. revert H.
  unfold pretty, pretty_Z. destruct z as [|p|p]; try discriminate.
  unfold pretty, pretty_positive, pretty, pretty_N.
  case_decide; [discriminate|]. apply pretty_N_go_not_N. discriminate.
Qed.

Lemma actualType_number (z : Z) (Hz : isSafeInteger z = true) :
  actualType (VNumber (Int z Hz)) = "number".
Proof.
  unfold actualType. simpl.
  destruct (pretty z =? "NaN")%string eqn:E; [|reflexivity].
  apply (number_toString_NaN (Int z Hz)) in E. discriminate.
Qed.

Lemma isString_iff (v : jsval) :
  isString (typeOf v) = true <-> exists s, v = VString s.
Proof.
  split; [|intros [s ->]; reflexivity].
  destruct v as [| |b|n|s|d|f|l|o|z]; try discriminate; eauto.
  destruct n as [|[]|z Hz]; try discriminate.
  unfold typeOf. cbv zeta. rewrite actualType_number. discriminate.
Qed.

Lemma isNotString_negb (v : jsval) :
  isNotString (typeOf v) = negb (isString (typeOf v)).
Proof. reflexivity. Qed.

Lemma isUndefinedOrNull_iff (v : jsval) :
  isUndefinedOrNull (typeOf v) = true <-> v = VUndefined \/ v = VNull.
Proof.
  split; [|intros [->| ->]; reflexivity].
  destruct v as [| |b|n|s|d|f|l|o|z]; try discriminate; eauto.
  destruct n as [|[]|z Hz]; try discriminate.
  unfold typeOf. cbv zeta. rewrite actualType_number. discriminate.
Qed.

Lemma isFunction_iff (v : jsval) :
  isFunction (typeOf v) = true <-> exists f, v = VFunction f.
Proof.
  split; [|intros [f ->]; reflexivity].
  destruct v as [| |b|n|s|d|f|l|o|z]; try discriminate; eauto.
  destruct n as [|[]|z Hz]; try discriminate.
  unfold typeOf. cbv zeta. rewrite actualType_number. discriminate.
Qed.

(** *** Strings *)

Lemma append_empty_r (s : string) : s +:+ "" = s.
Proof.
  induction s as [|c s IH]; [reflexivity|].
  change (String c (s +:+ "") = String c s). rewrite IH. reflexivity.
Qed.

(** *** Property lists *)

Lemma obj_lookup_set_eq (k : string) (v : jsval) (o : list (string * jsval)) :
  obj_lookup k (obj_set k v o) = Some v.
Proof.
  induction o as [|[k' v'] rest IH]; simpl.
  - rewrite String.eqb_refl. reflexivity.
  - destruct (k' =? k)%string eqn:E; simpl.
    + rewrite String.eqb_refl. reflexivity.
    + rewrite E. exact IH.
Qed.

Lemma obj_lookup_set_ne (k k' : string) (v : jsval) (o : list (string * jsval)) :
  k <> k' -> obj_lookup k' (obj_set k v o) = obj_lookup k' o.
Proof.
  intros Hne. induction o as [|[k0 v0] rest IH]; simpl.
  - destruct (k =? k')%string eqn:E; [|reflexivity].
    apply String.eqb_eq in E. contradiction.
  - destruct (k0 =? k)%string eqn:E; simpl.
    + apply String.eqb_eq in E. subst k0.
      destruct (k =? k')%string eqn:E'; [|reflexivity].
      apply String.eqb_eq in E'. contradiction.
    + rewrite IH. reflexivity.
Qed.

Lemma obj_get_set_eq (k : string) (v : jsval) (o : list (string * jsval)) :
  obj_get k (obj_set k v o) = v.
Proof. unfold obj_get. rewrite obj_lookup_set_eq. reflexivity. Qed.

Lemma obj_get_set_ne (k k' : string) (v : jsval) (o : list (string * jsval)) :
  k <> k' -> obj_get k' (obj_set k v o) = obj_get k' o.
Proof. intros H. unfold obj_get. rewrite obj_lookup_set_ne by exact H. reflexivity. Qed.

(** Writing a key twice keeps the second value only. *)
Lemma obj_set_set (k : string) (v1 v2 : jsval) (o : list (string * jsval)) :
  obj_set k v2 (obj_set k v1 o) = obj_set k v2 o.
Proof.
  induction o as [|[k' v'] rest IH]; simpl.
  - rewrite String.eqb_refl. reflexivity.
  - destruct (k' =? k)%string eqn:E; simpl.
    + rewrite String.eqb_refl. reflexivity.
    + rewrite E, IH. reflexivity.
Qed.

Lemma obj_set_keys_In (k k' : string) (v : jsval) (o : list (string * jsval)) :
  In k' (map fst (obj_set k v o)) -> k' = k \/ In k' (map fst o).
Proof.
  induction o as [|[k0 v0] rest IH]; simpl.
  - intros [<-|[]]. left. reflexivity.
  - destruct (k0 =? k)%string eqn:E; simpl.
    + intros [<-|H]; [left; reflexivity | right; right; exact H].
    + intros [<-|H]; [right; left; reflexivity |].
      destruct (IH H) as [->|H']; [left; reflexivity | right; right; exact H'].
Qed.

(** No key is ever listed twice, so the list is an object. *)
Lemma obj_set_NoDup (k : string) (v : jsval) (o : list (string * jsval)) :
  List.NoDup (map fst o) -> List.NoDup (map fst (obj_set k v o)).
Proof.
  induction o as [|[k0 v0] rest IH]; simpl; intros Hnd.
  - constructor; [intros [] | constructor].
  - inversion Hnd as [|? ? Hnotin Hrest]; subst.
    destruct (k0 =? k)%string eqn:E; simpl.
    + apply String.eqb_eq in E. subst k0. constructor; assumption.
    + constructor; [|apply IH; exact Hrest].
      intros Hin. apply obj_set_keys_In in Hin as [->|Hin].
      * rewrite String.eqb_refl in E. discriminate.
      * contradiction.
Qed.

(** *** The heap *)

Lemma deref_Some (this : loc) (b : builder) (w : world) :
  heap w !! this = Some b -> deref this w = (Normal b, w).
Proof. intros H. unfold deref. rewrite H. reflexivity. Qed.

Lemma modify_Some (this : loc) (f : builder -> builder) (b : builder) (w : world) :
  heap w !! this = Some b -> modify this f w = (Normal tt, set_obj this (f b) w).
Proof. intros H. unfold modify, bind. rewrite (deref_Some this b w H). reflexivity. Qed.

Lemma heap_set_obj (this : loc) (b : builder) (w : world) :
  heap (set_obj this b w) !! this = Some b.
Proof. unfold set_obj. simpl. apply lookup_insert_eq. Qed.

Lemma heap_set_obj_ne (this other : loc) (b : builder) (w : world) :
  this <> other -> heap (set_obj this b w) !! other = heap w !! other.
Proof. intros H. unfold set_obj. simpl. apply lookup_insert_ne. exact H. Qed.

Lemma set_obj_set_obj (this : loc) (b1 b2 : builder) (w : world) :
  set_obj this b2 (set_obj this b1 w) = set_obj this b2 w.
Proof. unfold set_obj. simpl. rewrite insert_insert_eq. reflexivity. Qed.

Lemma set_obj_id (this : loc) (b : builder) (w : world) :
  heap w !! this = Some b -> set_obj this b w = w.
Proof.
  intros H. destruct w as [h l]. unfold set_obj. simpl in *.
  rewrite (insert_id h this b H). reflexivity.
Qed.

Lemma log_set_obj (this : loc) (b : builder) (w : world) :
  log (set_obj this b w) = log w.
Proof. reflexivity. Qed.

(** *** Header mutators *)

(** Both arguments strings: the pair is merged into the header object and
    the instance itself is returned. *)
Lemma withHeader_accepts (this : loc) (b : builder) (w : world) (k v : string) :
  heap w !! this = Some b ->
  withHeader this (VString k) (VString v) w
  = (Normal this,
     set_obj this (set_headers (obj_set k (VString v) (__headers b)) b) w).
Proof.
  intros H. unfold withHeader. simpl. unfold bind, lift. simpl.
  rewrite (modify_Some this _ b w H). reflexivity.
Qed.

(** A non-string argument: the call throws whatever the construction of the
    error object comes to, and the world is untouched. *)
Lemma withHeader_rejects (this : loc) (w : world) (key value : jsval) :
  isNotString (typeOf key) || isNotString (typeOf value) = true ->
  withHeader this key value w
  = (match new_InvalidRequestHeader key value with
     | Normal e => Throw e
     | Throw e => Throw e
     end, w).
Proof.
  intros H. unfold withHeader. rewrite H. unfold bind, lift, throw.
  destruct (new_InvalidRequestHeader key value); reflexivity.
Qed.

(** Whatever is thrown, nothing has been written. *)
Lemma withHeader_atomic (this : loc) (w w' : world) (key value : jsval) (e : thrown) :
  withHeader this key value w = (Throw e, w') -> w' = w.
Proof.
  unfold withHeader.
  destruct (isNotString (typeOf key) || isNotString (typeOf value)) eqn:E.
  - unfold bind, lift, throw.
    destruct (new_InvalidRequestHeader key value); intros [= _ <-]; reflexivity.
  - unfold bind, lift, modify, bind, deref.
    destruct (ToString key); [|intros [= _ <-]; reflexivity].
    destruct (heap w !! this); simpl; [discriminate|].
    intros [= _ <-]; reflexivity.
Qed.

(** On a live instance the call throws exactly when an argument is not a
    string. *)
Lemma withHeader_throws_iff (this : loc) (b : builder) (w : world) (key value : jsval) :
  heap w !! this = Some b ->
  (exists e, fst (withHeader this key value w) = Throw e)
  <-> isNotString (typeOf key) || isNotString (typeOf value) = true.
Proof.
  intros Hb. split.
  - intros [e He].
    destruct (isNotString (typeOf key) || isNotString (typeOf value)) eqn:E;
      [reflexivity|].
    exfalso. apply orb_false_elim in E as [Ek Ev].
    rewrite isNotString_negb in Ek, Ev. apply negb_false_iff in Ek, Ev.
    apply isString_iff in Ek as [k ->]. apply isString_iff in Ev as [v ->].
    rewrite (withHeader_accepts this b w k v Hb) in He. discriminate He.
  - intros E. rewrite (withHeader_rejects this w key value E).
    destruct (new_InvalidRequestHeader key value); eexists; reflexivity.
Qed.

(** The error class is raised exactly for a non-string argument whose two
    values can both be printed into the message. *)
Lemma withHeader_InvalidRequestHeader (this : loc) (w : world) (key value : jsval) :
  (exists m, fst (withHeader this key value w) = Throw (InvalidRequestHeader m))
  <-> (isNotString (typeOf key) || isNotString (typeOf value) = true
       /\ exists k v, ToString key = Normal k /\ ToString value = Normal v).
Proof.
  split.
  - intros [m Hm].
    destruct (isNotString (typeOf key) || isNotString (typeOf value)) eqn:E.
    + split; [reflexivity|].
      rewrite (withHeader_rejects this w key value E) in Hm. simpl in Hm.
      unfold new_InvalidRequestHeader in Hm. simpl in Hm.
      destruct (ToString key) as [k|e1] eqn:Ek; simpl in Hm;
        [|apply ToString_throws in Ek; subst e1; discriminate].
      destruct (ToString value) as [v|e2] eqn:Ev; simpl in Hm;
        [|apply ToString_throws in Ev; subst e2; discriminate].
      eauto.
    + exfalso. apply orb_false_elim in E as [Ek Ev].
      rewrite isNotString_negb in Ek, Ev.
      apply negb_false_iff in Ek, Ev.
      apply isString_iff in Ek as [k ->]. apply isString_iff in Ev as [v ->].
      unfold withHeader in Hm. simpl in Hm. unfold bind, lift, modify, bind, deref in Hm.
      simpl in Hm. destruct (heap w !! this); simpl in Hm; discriminate.
  - intros [E (k & v & Hk & Hv)].
    rewrite (withHeader_rejects this w key value E).
    unfold new_InvalidRequestHeader. simpl. rewrite Hk, Hv. simpl. eauto.
Qed.

(** C6, at the input where the code departs from it: a symbol key is not a
    string, yet the call raises a TypeError (the constructor of the error
    class cannot print the symbol into its message) and not the header error;
    the header object is left as it was. *)
Theorem withHeader_symbol_key (this : loc) (w : world) :
  withHeader this (VSymbol "k") (VString "v") w = (Throw TypeError, w)
  /\ isNotString (typeOf (VSymbol "k")) = true.
Proof. split; reflexivity. Qed.

(** *** The bearer token *)

(** Appending to a string converts the right operand as a template literal
    does. *)
Lemma string_plus_ToString (text : string) (v : jsval) :
  string_plus text v = cbind (ToString v) (fun s => Normal (text +:+ s)).
Proof.
  unfold string_plus.
  destruct v as [| |b|n|s|d|f|l|o|z]; try reflexivity.
  simpl. destruct (join_elements ToString l); reflexivity.
Qed.

Lemma bearer_template (token : jsval) :
  template [inl "Bearer "; inr token]
  = cbind (ToString token) (fun s => Normal ("Bearer " +:+ s)).
Proof.
  simpl. destruct (ToString token) as [s|e]; simpl; [|reflexivity].
  rewrite append_empty_r. reflexivity.
Qed.

(** A token that prints is written after "Bearer ". *)
Lemma withBearerAuthorization_prints (this : loc) (b : builder) (w : world)
    (token : jsval) (s : string) :
  heap w !! this = Some b ->
  ToString token = Normal s ->
  withBearerAuthorization this token w
  = (Normal this,
     set_obj this
       (set_headers (obj_set "Authorization" (VString ("Bearer " +:+ s)) (__headers b)) b)
       w).
Proof.
  intros Hb Hs. unfold withBearerAuthorization. rewrite bearer_template, Hs.
  unfold bind at 1. unfold lift. cbn [cbind].
  unfold withAuthorization. apply withHeader_accepts. exact Hb.
Qed.

(** A token that does not print ends the call before any header is
    written. *)
Lemma withBearerAuthorization_throws (this : loc) (w : world) (token : jsval) (e : thrown) :
  ToString token = Throw e ->
  withBearerAuthorization this token w = (Throw TypeError, w).
Proof.
  intros He. unfold withBearerAuthorization. rewrite bearer_template, He.
  apply ToString_throws in He. subst e. reflexivity.
Qed.

(** C9, amended: [withBearerAuthorization(token)] is [withAuthorization('Bearer '
    + token)]; a string token sets the header Authorization to "Bearer "
    followed by the token, leaves the other headers, the body and the
    middlewares as they were, and returns the instance; the header error is
    never raised; and the interpolation yields a string for every token that
    can be converted to one, whereas a token that cannot (a symbol) makes
    the interpolation itself throw a TypeError before any header is
    written. *)
Theorem withBearerAuthorization_spec (this : loc) (token : jsval) (w : world) :
  withBearerAuthorization this token w
  = (bearer <- lift (string_plus "Bearer " token) ;;
     withAuthorization this (VString bearer)) w
  /\ (forall s b, token = VString s -> heap w !! this = Some b ->
        exists w' b',
          withBearerAuthorization this token w = (Normal this, w')
          /\ heap w' !! this = Some b'
          /\ obj_lookup "Authorization" (__headers b') = Some (VString ("Bearer " +:+ s))
          /\ (forall k, k <> "Authorization" ->
                obj_lookup k (__headers b') = obj_lookup k (__headers b))
          /\ __body b' = __body b
          /\ __middlewares b' = __middlewares b
          /\ log w' = log w
          /\ forall other, other <> this -> heap w' !! other = heap w !! other)
  /\ (forall m, fst (withBearerAuthorization this token w)
                <> Throw (InvalidRequestHeader m))
  /\ (forall s, ToString token = Normal s ->
        template [inl "Bearer "; inr token] = Normal ("Bearer " +:+ s))
  /\ (forall e, ToString token = Throw e ->
        withBearerAuthorization this token w = (Throw TypeError, w))
  /\ (forall d, token = VSymbol d ->
        withBearerAuthorization this token w = (Throw TypeError, w)).
Proof.
  split; [|split; [|split; [|split; [|split]]]].
  - unfold withBearerAuthorization.
    rewrite bearer_template, string_plus_ToString. reflexivity.
  - intros s b -> Hb.
    rewrite (withBearerAuthorization_prints this b w (VString s) s Hb eq_refl).
    do 2 eexists. split; [reflexivity|]. split; [apply heap_set_obj|].
    cbn [__headers __body __middlewares set_headers].
    split; [apply obj_lookup_set_eq|].
    split; [intros k Hk; apply obj_lookup_set_ne; congruence|].
    split; [reflexivity|]. split; [reflexivity|]. split; [reflexivity|].
    intros other Hne. apply heap_set_obj_ne. congruence.
  - intros m. destruct (ToString token) as [s|e] eqn:E.
    + unfold withBearerAuthorization. rewrite bearer_template, E.
      unfold bind at 1. unfold lift. cbn [cbind].
      unfold withAuthorization, withHeader. simpl.
      unfold bind, lift, modify, bind, deref. simpl.
      destruct (heap w !! this); simpl; discriminate.
    + rewrite (withBearerAuthorization_throws this w token e E). discriminate.
  - intros s Hs. rewrite bearer_template, Hs. reflexivity.
  - apply withBearerAuthorization_throws.
  - intros d ->. apply (withBearerAuthorization_throws this w (VSymbol d) TypeError).
    reflexivity.
Qed.

(** *** Body and middleware mutators *)

(** A body that is neither undefined nor null is written into the
    instance. *)
Lemma withBody_accepts (this : loc) (b : builder) (w : world) (body : jsval) :
  heap w !! this = Some b ->
  isUndefinedOrNull (typeOf body) = false ->
  withBody this body w = (Normal this, set_obj this (set_body body b) w).
Proof.
  intros Hb E. unfold withBody. rewrite E. unfold bind.
  rewrite (modify_Some this _ b w Hb). reflexivity.
Qed.

(** C7: [withBody(body)] raises the body error exactly when the body
    classifies as undefined-or-null, and then leaves the world, hence the
    stored body, as it was; any other value is stored as it is (the instance
    then reads back that very body, with its headers and middlewares
    untouched) and the instance is returned; 0, the empty string, false, the
    empty array and the empty object are each stored in this way. *)
Theorem withBody_spec (this : loc) (b : builder) (w : world) (body : jsval) :
  heap w !! this = Some b ->
  (isUndefinedOrNull (typeOf body) = true ->
     exists m, withBody this body w = (Throw (InvalidBody m), w))
  /\ (isUndefinedOrNull (typeOf body) = false ->
     exists w' b',
       withBody this body w = (Normal this, w')
       /\ heap w' !! this = Some b'
       /\ __body b' = body
       /\ __headers b' = __headers b
       /\ __middlewares b' = __middlewares b
       /\ log w' = log w
       /\ forall other, other <> this -> heap w' !! other = heap w !! other)
  /\ List.Forall
       (fun v => exists w',
          withBody this v w = (Normal this, w')
          /\ (__body <$> heap w' !! this) = Some v)
       [VNumber (Int 0 eq_refl); VString ""; VBool false; VArray []; VObject []].
Proof.
  intros Hb. split; [|split].
  - intros E. unfold withBody. rewrite E.
    apply isUndefinedOrNull_iff in E as [-> | ->]; simpl; eauto.
  - intros E. rewrite (withBody_accepts this b w body Hb E).
    do 2 eexists. split; [reflexivity|]. split; [apply heap_set_obj|].
    split; [reflexivity|]. split; [reflexivity|]. split; [reflexivity|].
    split; [reflexivity|].
    intros other Hne. apply heap_set_obj_ne. congruence.
  - repeat (apply List.Forall_cons || apply List.Forall_nil);
      (eexists; split; [apply (withBody_accepts this b w _ Hb); reflexivity|];
       rewrite heap_set_obj; reflexivity).
Qed.

Lemma set_middlewares_same (b : builder) :
  set_middlewares
    {| body := body (__middlewares b); header := header (__middlewares b) |} b = b.
Proof. destruct b as [? ? ? ? ? []]. reflexivity. Qed.

(** Once the parameter pattern has bound [header] and [body], the two
    guarded assignments cannot fail. *)
Lemma register_slots (this : loc) (b : builder) (w : world) (h bd : jsval) :
  heap w !! this = Some b ->
  ((if isFunction (typeOf h) then
      modify this (fun b => set_middlewares (set_header_slot h (__middlewares b)) b)
    else ret tt) ;;;
   (if isFunction (typeOf bd) then
      modify this (fun b => set_middlewares (set_body_slot bd (__middlewares b)) b)
    else ret tt) ;;;
   ret this) w
  = (Normal this,
     set_obj this
       (set_middlewares
          {| body := if isFunction (typeOf bd) then bd else body (__middlewares b);
             header := if isFunction (typeOf h) then h else header (__middlewares b) |}
          b) w).
Proof.
  intros Hb.
  destruct (isFunction (typeOf h)) eqn:Eh; destruct (isFunction (typeOf bd)) eqn:Eb;
    unfold bind, ret.
  - rewrite (modify_Some this _ b w Hb).
    rewrite (modify_Some this _ _ _ (heap_set_obj this _ w)).
    rewrite set_obj_set_obj. reflexivity.
  - rewrite (modify_Some this _ b w Hb). reflexivity.
  - rewrite (modify_Some this _ b w Hb). reflexivity.
  - rewrite set_middlewares_same, (set_obj_id this b w Hb). reflexivity.
Qed.

(** C8: for an object argument, the call returns the instance without an
    error, and the instance then reads back, in each slot, the value given
    for the slot when that value classifies as a function, and the value the
    slot held before otherwise (a missing value, undefined, among them); the
    headers and the body are untouched. *)
Theorem withMiddleware_slots (this : loc) (b : builder) (w : world)
    (props : list (string * jsval)) :
  heap w !! this = Some b ->
  exists w' b',
    withMiddleware this (VObject props) w = (Normal this, w')
    /\ heap w' !! this = Some b'
    /\ header (__middlewares b')
       = (if isFunction (typeOf (obj_get "header" props))
          then obj_get "header" props else header (__middlewares b))
    /\ body (__middlewares b')
       = (if isFunction (typeOf (obj_get "body" props))
          then obj_get "body" props else body (__middlewares b))
    /\ __headers b' = __headers b
    /\ __body b' = __body b
    /\ log w' = log w
    /\ forall other, other <> this -> heap w' !! other = heap w !! other.
Proof.
  intros Hb. unfold withMiddleware, GetV. unfold bind at 1 2. unfold lift.
  rewrite (register_slots this b w _ _ Hb).
  do 2 eexists. split; [reflexivity|]. split; [apply heap_set_obj|].
  split; [reflexivity|]. split; [reflexivity|]. split; [reflexivity|].
  split; [reflexivity|]. split; [reflexivity|].
  intros other Hne. apply heap_set_obj_ne. congruence.
Qed.

(** C10: called with no argument (undefined) or with null, the mutator
    throws a TypeError while binding its parameter pattern, and nothing is
    written; these are the only arguments it throws on; an object whose two
    slots hold no function is, by contrast, accepted and ignored. *)
Theorem withMiddleware_nullish (this : loc) (w : world) :
  withMiddleware this VUndefined w = (Throw TypeError, w)
  /\ withMiddleware this VNull w = (Throw TypeError, w)
  /\ (forall config b, heap w !! this = Some b ->
        (exists e, fst (withMiddleware this config w) = Throw e)
        <-> config = VUndefined \/ config = VNull)
  /\ (forall props,
        isFunction (typeOf (obj_get "header" props)) = false ->
        isFunction (typeOf (obj_get "body" props)) = false ->
        withMiddleware this (VObject props) w = (Normal this, w)).
Proof.
  split; [reflexivity|]. split; [reflexivity|]. split.
  - intros config b Hb. split.
    + intros [e He]. destruct config; auto; exfalso; revert He;
        unfold withMiddleware, GetV; unfold bind at 1 2; unfold lift;
        rewrite (register_slots this b w _ _ Hb); discriminate.
    + intros [-> | ->]; exists TypeError; reflexivity.
  - intros props Eh Eb. unfold withMiddleware, GetV.
    unfold bind, lift, ret. rewrite Eh, Eb. reflexivity.
Qed.

(** *** Parameter assembly *)

(** The call, evaluated: the payload is serialised only for an included
    body under a JSON content type. *)
Lemma _parameters_eval (this : loc) (b : builder) (w : world) (method : jsval) :
  heap w !! this = Some b ->
  _parameters this method w
  = (if negb (isUndefinedOrNull (typeOf (__body b)))
     then match obj_lookup "Content-Type" (__headers b) with
          | Some (VString ct) =>
              cbind (if String.prefix "application/json" ct
                     then JSON_stringify (__body b) else Normal (__body b))
                (fun payload =>
                   Normal (VObject [("method", method);
                                    ("headers", VObject (__headers b));
                                    ("body", payload)]))
          | _ => Normal (VObject [("method", method); ("headers", VObject (__headers b))])
          end
     else Normal (VObject [("method", method); ("headers", VObject (__headers b))]),
     w).
Proof.
  intros Hb. unfold _parameters, bind. rewrite (deref_Some this b w Hb).
  unfold obj_get.
  destruct (isUndefinedOrNull (typeOf (__body b))) eqn:Eset; cbn [negb andb];
    [reflexivity|].
  destruct (obj_lookup "Content-Type" (__headers b)) as [ct|] eqn:Ect; [|reflexivity].
  destruct (isString (typeOf ct)) eqn:Estr.
  - apply isString_iff in Estr as [s ->]. unfold lift, ret. cbn [startsWith].
    destruct (String.prefix "application/json" s).
    + destruct (JSON_stringify (__body b)); reflexivity.
    + reflexivity.
  - destruct ct as [| |?|?|s|?|?|?|?|?]; try reflexivity. discriminate Estr.
Qed.

(** C3: the call returns a record, unless the body is to be serialised and
    the serialiser throws, in which case the call throws the same and no
    record is assembled.  A record that is returned carries the method and
    the headers; it has the key [body] if and only if a body is set and the
    header object has a Content-Type that classifies as a string; the
    payload is then what the serialiser returns for the body when that
    Content-Type starts with "application/json", and the body itself
    otherwise.  The world is not changed. *)
Theorem _parameters_body (this : loc) (b : builder) (w : world) (method : jsval) :
  heap w !! this = Some b ->
  let included :=
    isUndefinedOrNull (typeOf (__body b)) = false
    /\ exists ct, obj_lookup "Content-Type" (__headers b) = Some ct
                  /\ isString (typeOf ct) = true in
  ((exists record,
      _parameters this method w = (Normal (VObject record), w)
      /\ obj_lookup "method" record = Some method
      /\ obj_lookup "headers" record = Some (VObject (__headers b))
      /\ ((exists payload, obj_lookup "body" record = Some payload) <-> included)
      /\ (forall payload, obj_lookup "body" record = Some payload ->
            exists ct, obj_lookup "Content-Type" (__headers b) = Some (VString ct)
              /\ if String.prefix "application/json" ct
                 then JSON_stringify (__body b) = Normal payload
                 else payload = __body b))
   \/ (exists e ct,
         _parameters this method w = (Throw e, w)
         /\ included
         /\ obj_lookup "Content-Type" (__headers b) = Some (VString ct)
         /\ String.prefix "application/json" ct = true
         /\ JSON_stringify (__body b) = Throw e))
  /\ (forall result w', _parameters this method w = (Normal result, w') ->
        w' = w /\ exists record, result = VObject record)
  /\ (included ->
      forall ct, obj_lookup "Content-Type" (__headers b) = Some (VString ct) ->
        _parameters this method w
        = (cbind (if String.prefix "application/json" ct
                  then JSON_stringify (__body b) else Normal (__body b))
             (fun payload =>
                Normal (VObject [("method", method);
                                 ("headers", VObject (__headers b));
                                 ("body", payload)])), w)).
Proof.
  intros Hb included. subst included.
  rewrite (_parameters_eval this b w method Hb).
  destruct (isUndefinedOrNull (typeOf (__body b))) eqn:Eset; cbn [negb].
  { split; [|split].
    - left. exists [("method", method); ("headers", VObject (__headers b))].
      split; [reflexivity|]. split; [reflexivity|]. split; [reflexivity|]. split.
      + split; [intros [p Hp]; discriminate Hp | intros [Hf _]; discriminate Hf].
      + intros p Hp. discriminate Hp.
    - intros result w' [= <- <-]. eauto.
    - intros [Hf _]. discriminate Hf. }
  assert (Hnone : forall other,
    (forall ct, other <> Some (VString ct)) ->
    obj_lookup "Content-Type" (__headers b) = other ->
    (exists record,
       (Normal (VObject [("method", method); ("headers", VObject (__headers b))]), w)
       = (Normal (VObject record), w)
       /\ obj_lookup "method" record = Some method
       /\ obj_lookup "headers" record = Some (VObject (__headers b))
       /\ ((exists payload, obj_lookup "body" record = Some payload)
           <-> (false = false
                /\ exists ct, other = Some ct /\ isString (typeOf ct) = true))
       /\ (forall payload, obj_lookup "body" record = Some payload ->
             exists ct, other = Some (VString ct)
               /\ if String.prefix "application/json" ct
                  then JSON_stringify (__body b) = Normal payload
                  else payload = __body b))).
  { intros other Hns _.
    exists [("method", method); ("headers", VObject (__headers b))].
    split; [reflexivity|]. split; [reflexivity|]. split; [reflexivity|]. split.
    - split; [intros [p Hp]; discriminate Hp |].
      intros [_ (ct & -> & Hs)]. apply isString_iff in Hs as [s ->].
      exfalso. eapply Hns. reflexivity.
    - intros p Hp. discriminate Hp. }
  destruct (obj_lookup "Content-Type" (__headers b)) as [ct|] eqn:Ect.
  2: { split; [|split].
       - left. apply (Hnone None); [intros ct'; discriminate | reflexivity].
       - intros result w' [= <- <-]. eauto.
       - intros _ ct Hct. discriminate Hct. }
  destruct ct as [| |?|?|s|?|?|?|?|?].
  5: { assert (Hin : false = false
                     /\ exists ct, Some (VString s) = Some ct /\ isString (typeOf ct) = true).
       { split; [reflexivity|]. exists (VString s). split; reflexivity. }
       split; [|split].
       - destruct (String.prefix "application/json" s) eqn:Epre.
         + destruct (JSON_stringify (__body b)) as [t|e] eqn:Ejson; cbn [cbind].
           * left. eexists. split; [reflexivity|].
             split; [reflexivity|]. split; [reflexivity|]. split.
             -- split; [intros _; exact Hin | intros _; eexists; reflexivity].
             -- intros p [= <-]. exists s. split; [reflexivity|].
                rewrite Epre. reflexivity.
           * right. exists e, s. split; [reflexivity|]. split; [exact Hin|].
             split; [reflexivity|]. split; [exact Epre | reflexivity].
         + cbn [cbind]. left. eexists. split; [reflexivity|].
           split; [reflexivity|]. split; [reflexivity|]. split.
           * split; [intros _; exact Hin | intros _; eexists; reflexivity].
           * intros p [= <-]. exists s. split; [reflexivity|].
             rewrite Epre. reflexivity.
       - intros result w'.
         destruct (if String.prefix "application/json" s
                   then JSON_stringify (__body b) else Normal (__body b));
           cbn [cbind]; intros [= <- <-]; eauto.
       - intros _ ct [= <-]. reflexivity. }
  all: (split; [|split];
        [ left; eapply Hnone; [intros ct'; discriminate | reflexivity]
        | intros result w' [= <- <-]; eauto
        | intros _ ct Hct; discriminate Hct ]).
Qed.

(** *** The dispatch in closed form *)

Lemma url_template (b : builder) (path : jsval) :
  (if isString (typeOf path)
   then template [inr (VString (baseURL b)); inr path]
   else template [inr (VString (baseURL b))])
  = Normal (request_url b path).
Proof.
  destruct (isString (typeOf path)) eqn:E.
  - apply isString_iff in E as [p ->]. simpl. rewrite append_empty_r. reflexivity.
  - simpl. rewrite append_empty_r. destruct path; try reflexivity. discriminate E.
Qed.

Lemma abind_eval {A B} (m : Async A) (k : A -> Async B) (w : world) :
  abind m k w
  = match m w with
    | (Done a, w') => k a w'
    | (Failed e, w') => (Failed e, w')
    | (Suspended, w') => (Suspended, w')
    end.
Proof. reflexivity. Qed.

Lemma sync_deref (ctx : loc) (b : builder) (w : world) :
  heap w !! ctx = Some b -> sync (deref ctx) w = (Done b, w).
Proof. intros H. unfold sync. rewrite (deref_Some ctx b w H). reflexivity. Qed.

(** One guarded call-and-await, against [stage_outcome]. *)
Lemma guarded_stage (ctx : loc) (b : builder) (w : world) (ev : event) (f arg : jsval) :
  heap w !! ctx = Some b ->
  (if truthy f then
     r <~ sync (emit ev ;;; invoke ctx f arg) ;;
     await r ~;; aret tt
   else aret tt) w
  = (fst (stage_outcome f arg b),
     {| heap := <[ctx := snd (stage_outcome f arg b)]> (heap w);
        log := (log w ++ if truthy f then [ev] else [])%list |}).
Proof.
  intros Hb. unfold stage_outcome. destruct (truthy f) eqn:Ef.
  - destruct f as [| |?|?|?|?|fr|?|?|?];
      try (unfold invoke; unfold abind, sync, bind, emit, throw; simpl;
           rewrite (insert_id (heap w) ctx b Hb); reflexivity).
    unfold invoke. unfold abind, sync, bind, emit, deref. simpl. rewrite Hb.
    destruct (call_function fr arg b) as [[[v|[v|e|]]|e] b']; reflexivity.
  - unfold aret. destruct w as [h l]. simpl in *.
    rewrite (insert_id h ctx b Hb), app_nil_r. reflexivity.
Qed.

Lemma async_withMiddleware_summary (ctx : loc) (b : builder) (w : world) (url : string) :
  heap w !! ctx = Some b ->
  async_withMiddleware ctx (continuation ctx url) w
  = let '(s, b', tr) := dispatch_summary ctx b url in
    (Normal (Promise s),
     {| heap := <[ctx := b']> (heap w); log := (log w ++ tr)%list |}).
Proof.
  intros Hb. unfold async_withMiddleware, dispatch_summary, async.
  rewrite abind_eval, (sync_deref ctx b w Hb). cbv beta iota.
  rewrite abind_eval, (guarded_stage ctx b w _ _ _ Hb).
  destruct (stage_outcome (header (__middlewares b)) (VObject (__headers b)) b)
    as [[[]|e|] b1]; cbn [fst snd]; try reflexivity.
  rewrite abind_eval.
  rewrite (sync_deref ctx b1) by (cbn [heap]; apply lookup_insert_eq).
  cbv beta iota.
  rewrite abind_eval, (guarded_stage ctx b1) by (cbn [heap]; apply lookup_insert_eq).
  cbn [heap log]. rewrite insert_insert_eq, <- app_assoc.
  destruct (stage_outcome (body (__middlewares b1)) (__body b1) b1)
    as [[[]|e|] b2]; cbn [fst snd]; try reflexivity.
  unfold sync, continuation, bind, emit. cbn [heap log].
  rewrite <- !app_assoc.
  destruct (fetch url (VFunction (Method ctx "_parameters"))) as [[v|s]|e]; reflexivity.
Qed.

(** A dispatch through [_call], in closed form. *)
Lemma _call_summary (this : loc) (b : builder) (w : world) (method path : jsval) :
  heap w !! this = Some b ->
  _call this method path w
  = let '(s, b', tr) := dispatch_summary this b (request_url b path) in
    (Normal (Promise s),
     {| heap := <[this := b']> (heap w); log := (log w ++ tr)%list |}).
Proof.
  intros Hb. unfold _call. unfold bind at 1. rewrite (deref_Some this b w Hb).
  unfold bind at 1. rewrite url_template. unfold lift.
  apply async_withMiddleware_summary. exact Hb.
Qed.

(** *** Stages *)

Lemma stage_done_iff (f arg : jsval) (b b1 : builder) :
  stage_outcome f arg b = (Done tt, b1)
  <-> (truthy f = false /\ b1 = b) \/ (truthy f = true /\ completes f arg b b1).
Proof.
  unfold stage_outcome, completes. destruct (truthy f) eqn:Ef.
  - split.
    + intros H. right. split; [reflexivity|].
      destruct f as [| |?|?|?|?|fr|?|?|?]; try discriminate H.
      destruct (call_function fr arg b) as [[x|e] b'] eqn:Ecall; [|discriminate H].
      exists fr, x. destruct x as [v|[v|e|]]; inversion H; subst; simpl; auto.
    + intros [[Hf _]|[_ (fr & x & -> & Hcall & Hres)]]; [discriminate Hf|].
      rewrite Hcall. destruct x as [v|[v|e|]]; simpl in Hres; try contradiction; reflexivity.
  - split.
    + intros [= <-]. left. auto.
    + intros [[_ ->]|[Hf _]]; [reflexivity | discriminate Hf].
Qed.

Lemma stage_failed_iff (f arg : jsval) (b : builder) (e : thrown) :
  (exists b1, stage_outcome f arg b = (Failed e, b1))
  <-> truthy f = true /\ fails f arg b e.
Proof.
  unfold stage_outcome, fails. destruct (truthy f) eqn:Ef.
  - split.
    + intros [b1 H]. split; [reflexivity|].
      destruct f as [| |?|?|?|?|fr|?|?|?]; try (inversion H; reflexivity).
      destruct (call_function fr arg b) as [[x|e'] b'] eqn:Ecall.
      * destruct x as [v|[v|e'|]]; inversion H; subst. eexists. right. reflexivity.
      * inversion H; subst. eexists. left. reflexivity.
    + intros [_ H].
      destruct f as [| |?|?|?|?|fr|?|?|?]; try (subst e; eexists; reflexivity).
      destruct H as [b' [H|H]]; rewrite H; eexists; reflexivity.
  - split; [intros [b1 [=]] | intros [[=] _]].
Qed.

Lemma header_stage_iff (b b1 : builder) :
  header_stage b b1
  <-> stage_outcome (header (__middlewares b)) (VObject (__headers b)) b = (Done tt, b1).
Proof. unfold header_stage. symmetry. apply stage_done_iff. Qed.

Lemma body_stage_iff (b1 b2 : builder) :
  body_stage b1 b2
  <-> stage_outcome (body (__middlewares b1)) (__body b1) b1 = (Done tt, b2).
Proof. unfold body_stage. symmetry. apply stage_done_iff. Qed.

(** A stage that is known to have failed or hung cannot also have
    completed. *)
Ltac no_stage :=
  match goal with
  | H : header_stage _ _ |- _ => apply header_stage_iff in H; congruence
  | H : body_stage _ _ |- _ => apply body_stage_iff in H; congruence
  end.

(** *** From the dispatchers to [_call] *)

Lemma path_used_effective (d : dispatcher) (path : jsval) (b : builder) :
  d <> D_delete -> path_used d path b = effective_path path b.
Proof. intros Hd. destruct d; try reflexivity. contradiction. Qed.

Lemma path_used_delete (path : jsval) (b : builder) :
  path_used D_delete path b = if truthy path then path else VUndefined.
Proof. reflexivity. Qed.

(** Every dispatcher ends in [_call], on the prepared instance.  The two
    JSON dispatchers apply [path || this.__path] twice, to the same effect. *)
Lemma dispatch_call (d : dispatcher) (this : loc) (b : builder) (w : world) (path : jsval) :
  heap w !! this = Some b ->
  dispatch d this path w
  = _call this (VString (method_of d)) (path_used d path b)
      (set_obj this (prepared d b) w).
Proof.
  intros Hb.
  assert (Hjson : withContentType this (VString "application/json") w
                  = (Normal this, set_obj this (prepared D_postJSON b) w)).
  { unfold withContentType. apply withHeader_accepts. exact Hb. }
  assert (Hb' : deref this (set_obj this (prepared D_postJSON b) w)
                = (Normal (prepared D_postJSON b), set_obj this (prepared D_postJSON b) w)).
  { apply deref_Some. apply heap_set_obj. }
  assert (Heff : js_or (js_or path (__path b)) (__path b) = js_or path (__path b)).
  { unfold js_or. destruct (truthy path) eqn:E.
    - rewrite E. reflexivity.
    - destruct (truthy (__path b)); reflexivity. }
  destruct d; cbn [dispatch prepared path_used method_of];
    rewrite ?(set_obj_id this b w Hb).
  - unfold get, bind. rewrite (deref_Some this b w Hb). reflexivity.
  - unfold post, bind. rewrite (deref_Some this b w Hb). reflexivity.
  - unfold postJSON. unfold bind at 1. rewrite Hjson.
    unfold bind at 1. rewrite Hb'. unfold post. unfold bind at 1. rewrite Hb'.
    cbn [prepared __path set_headers]. rewrite Heff. reflexivity.
  - unfold put, bind. rewrite (deref_Some this b w Hb). reflexivity.
  - unfold putJSON. unfold bind at 1. rewrite Hjson.
    unfold bind at 1. rewrite Hb'. unfold put. unfold bind at 1. rewrite Hb'.
    cbn [prepared __path set_headers]. rewrite Heff. reflexivity.
  - unfold delete, bind. rewrite (deref_Some this b w Hb). reflexivity.
Qed.

Lemma baseURL_prepared (d : dispatcher) (b : builder) (path : jsval) :
  request_url (prepared d b) path = request_url b path.
Proof. destruct d; reflexivity. Qed.

(** A dispatch, in closed form. *)
Lemma dispatch_summary_eq (d : dispatcher) (this : loc) (b : builder) (w : world)
    (path : jsval) :
  heap w !! this = Some b ->
  dispatch d this path w
  = let '(s, b', tr) :=
      dispatch_summary this (prepared d b) (request_url b (path_used d path b)) in
    (Normal (Promise s),
     {| heap := <[this := b']> (heap w); log := (log w ++ tr)%list |}).
Proof.
  intros Hb. rewrite (dispatch_call d this b w path Hb).
  rewrite (_call_summary this (prepared d b)) by apply heap_set_obj.
  rewrite baseURL_prepared.
  destruct (dispatch_summary this (prepared d b) _) as [[s b'] tr].
  unfold set_obj. cbn [heap log]. rewrite insert_insert_eq. reflexivity.
Qed.

(** *** Order of the calls *)

(** C4: for each of the six dispatchers, the calls of a dispatch are, in
    this order, at most one call of the header middleware, at most one call
    of the body middleware, and at most one call of the transport.  The
    header middleware is called exactly when it is registered, with the
    header object of the instance.  The body middleware is called exactly
    when the header stage has completed (no header middleware, or its result
    has been awaited and has resolved) and a body middleware is then
    registered, with the body the instance then has.  The transport is
    called exactly when both stages have completed. *)
Theorem dispatch_order (d : dispatcher) (this : loc) (b : builder) (w : world)
    (path : jsval) :
  heap w !! this = Some b ->
  let b0 := prepared d b in
  exists s w' hs bs ts,
    dispatch d this path w = (Normal (Promise s), w')
    /\ log w' = (log w ++ hs ++ bs ++ ts)%list
    /\ hs = (if truthy (header (__middlewares b0))
             then [HeaderMiddlewareCalled (header (__middlewares b0))
                     (VObject (__headers b0))]
             else [])
    /\ ((exists b1, header_stage b0 b1
                    /\ truthy (body (__middlewares b1)) = true
                    /\ bs = [BodyMiddlewareCalled (body (__middlewares b1)) (__body b1)])
        \/ (bs = []
            /\ forall b1, header_stage b0 b1 -> truthy (body (__middlewares b1)) = false))
    /\ ((exists b1 b2 url init, header_stage b0 b1 /\ body_stage b1 b2
                                /\ ts = [TransportCalled url init])
        \/ (ts = [] /\ forall b1 b2, header_stage b0 b1 -> ~ body_stage b1 b2)).
Proof.
  intros Hb b0. rewrite (dispatch_summary_eq d this b w path Hb). fold b0.
  unfold dispatch_summary.
  destruct (stage_outcome (header (__middlewares b0)) (VObject (__headers b0)) b0)
    as [[[]|e|] b1] eqn:E1.
  2, 3: (* the header stage fails or hangs: nothing follows *)
    do 3 eexists; exists [], []; split; [reflexivity|]; cbn [log];
    rewrite app_nil_r; split; [reflexivity|]; split; [reflexivity|];
    split; right; (split; [reflexivity|]); intros; no_stage.
  assert (Huniq : forall b1', header_stage b0 b1' -> b1' = b1).
  { intros b1' H. apply header_stage_iff in H. congruence. }
  assert (Hh : header_stage b0 b1) by (apply header_stage_iff; exact E1).
  set (bs := if truthy (body (__middlewares b1))
             then [BodyMiddlewareCalled (body (__middlewares b1)) (__body b1)]
             else []).
  assert (Hbs :
    (exists b1', header_stage b0 b1'
                 /\ truthy (body (__middlewares b1')) = true
                 /\ bs = [BodyMiddlewareCalled (body (__middlewares b1')) (__body b1')])
    \/ (bs = []
        /\ forall b1', header_stage b0 b1' -> truthy (body (__middlewares b1')) = false)).
  { subst bs. destruct (truthy (body (__middlewares b1))) eqn:Eg.
    - left. exists b1. auto.
    - right. split; [reflexivity|]. intros b1' H. rewrite (Huniq b1' H). exact Eg. }
  destruct (stage_outcome (body (__middlewares b1)) (__body b1) b1)
    as [[[]|e|] b2] eqn:E2.
  2, 3: (* the body stage fails or hangs: the transport is not called *)
    do 4 eexists; exists []; split; [reflexivity|]; cbn [log];
    rewrite app_nil_r; split; [reflexivity|]; split; [reflexivity|];
    split; [exact Hbs|]; right; split; [reflexivity|];
    intros b1' b2' H1 H2; rewrite (Huniq b1' H1) in H2; no_stage.
  do 5 eexists. split; [reflexivity|]. cbn [log].
  split; [reflexivity|]. split; [reflexivity|]. split; [exact Hbs|].
  left. exists b1, b2. do 2 eexists. split; [exact Hh|].
  split; [apply body_stage_iff; exact E2 | reflexivity].
Qed.

(** C5: for each of the six dispatchers, when the registered header
    middleware fails, or the header stage completes and the registered body
    middleware fails (it throws, or the promise it returns rejects), the
    promise returned by the dispatch rejects with that very failure and the
    transport is not called; after a failure of the header middleware the
    body middleware is not called either. *)
Theorem middleware_failure_aborts (d : dispatcher) (this : loc) (b : builder)
    (w : world) (path : jsval) (e : thrown) :
  heap w !! this = Some b ->
  let b0 := prepared d b in
  let header_fails :=
    truthy (header (__middlewares b0)) = true
    /\ fails (header (__middlewares b0)) (VObject (__headers b0)) b0 e in
  header_fails
  \/ (exists b1, header_stage b0 b1
                 /\ truthy (body (__middlewares b1)) = true
                 /\ fails (body (__middlewares b1)) (__body b1) b1 e) ->
  exists w' tr,
    dispatch d this path w = (Normal (Promise (Rejected e)), w')
    /\ log w' = (log w ++ tr)%list
    /\ (forall url init, ~ In (TransportCalled url init) tr)
    /\ (header_fails -> forall f arg, ~ In (BodyMiddlewareCalled f arg) tr).
Proof.
  intros Hb b0 header_fails Hfail.
  rewrite (dispatch_summary_eq d this b w path Hb). fold b0.
  unfold dispatch_summary.
  destruct Hfail as [Hh | (b1 & Hstage & Hg & Hf)].
  - apply stage_failed_iff in Hh as [b1 E1]. rewrite E1.
    do 2 eexists. split; [reflexivity|]. cbn [log]. split; [reflexivity|].
    split; [intros url init | intros _ f arg];
      (destruct (truthy (header (__middlewares b0))); simpl;
       [intros [H|[]]; discriminate H | intros []]).
  - apply header_stage_iff in Hstage. rewrite Hstage.
    assert (Hf' : exists b2,
      stage_outcome (body (__middlewares b1)) (__body b1) b1 = (Failed e, b2)).
    { apply stage_failed_iff. auto. }
    destruct Hf' as [b2 E2]. rewrite E2.
    do 2 eexists. split; [reflexivity|]. cbn [log]. split; [reflexivity|]. split.
    + intros url init Hin. apply in_app_or in Hin as [Hin|Hin].
      * destruct (truthy (header (__middlewares b0))); simpl in Hin.
        -- destruct Hin as [H|[]]. discriminate H.
        -- exact Hin.
      * rewrite Hg in Hin. destruct Hin as [H|[]]. discriminate H.
    + intros Hh. apply stage_failed_iff in Hh as [b1' E1]. congruence.
Qed.

(** *** What the transport is given *)

(** For each of the six dispatchers, when both stages complete the transport
    is called last, with the request URL of the path the dispatcher used
    and, as its second argument, the function object [_parameters] of the
    instance, which is left as the body stage left it. *)
Lemma dispatch_transport_call (d : dispatcher) (this : loc) (b b1 b2 : builder)
    (w : world) (path : jsval) :
  heap w !! this = Some b ->
  header_stage (prepared d b) b1 -> body_stage b1 b2 ->
  exists s w' calls,
    dispatch d this path w = (Normal (Promise s), w')
    /\ log w' = (log w ++ calls
                   ++ [TransportCalled (request_url b (path_used d path b))
                         (VFunction (Method this "_parameters"))])%list
    /\ heap w' !! this = Some b2.
Proof.
  intros Hb H1 H2. rewrite (dispatch_summary_eq d this b w path Hb).
  unfold dispatch_summary.
  apply header_stage_iff in H1. rewrite H1.
  apply body_stage_iff in H2. rewrite H2.
  do 3 eexists. split; [reflexivity|]. cbn [log heap]. split.
  - f_equal. apply app_assoc.
  - apply lookup_insert_eq.
Qed.

(** What the transport is given is not what [_parameters] assembles:
    whatever [_parameters] would return after the dispatch, for any method,
    is an object, hence another value than the function object. *)
Lemma dispatch_transport (d : dispatcher) (this : loc) (b b1 b2 : builder) (w : world)
    (path : jsval) :
  heap w !! this = Some b ->
  header_stage (prepared d b) b1 -> body_stage b1 b2 ->
  exists s w' calls,
    dispatch d this path w = (Normal (Promise s), w')
    /\ log w' = (log w ++ calls
                   ++ [TransportCalled (request_url b (path_used d path b))
                         (VFunction (Method this "_parameters"))])%list
    /\ forall method record w2,
         _parameters this method w' = (Normal record, w2) ->
         record <> VFunction (Method this "_parameters").
Proof.
  intros Hb H1 H2.
  destruct (dispatch_transport_call d this b b1 b2 w path Hb H1 H2)
    as (s & w' & calls & Hrun & Hlog & Hb2).
  exists s, w', calls. split; [exact Hrun|]. split; [exact Hlog|].
  intros method record w2. rewrite (_parameters_eval this b2 w' method Hb2).
  destruct (negb _); [|intros [= <- _]; discriminate].
  destruct (obj_lookup _ _) as [[| |?|?|ct|?|?|?|?|?]|];
    try (intros [= <- _]; discriminate).
  destruct (if String.prefix "application/json" ct then _ else _); cbn [cbind];
    [intros [= <- _]; discriminate | discriminate].
Qed.

(** The five dispatchers other than [delete] ask for the base URL followed
    by the effective path of the specification. *)
Lemma dispatch_url (d : dispatcher) (this : loc) (b b1 b2 : builder) (w : world)
    (path : jsval) :
  d <> D_delete ->
  heap w !! this = Some b ->
  header_stage (prepared d b) b1 -> body_stage b1 b2 ->
  exists s w' calls init,
    dispatch d this path w = (Normal (Promise s), w')
    /\ log w' = (log w ++ calls
                   ++ [TransportCalled (request_url b (effective_path path b)) init])%list.
Proof.
  intros Hd Hb H1 H2.
  destruct (dispatch_transport_call d this b b1 b2 w path Hb H1 H2)
    as (s & w' & calls & Hrun & Hlog & _).
  rewrite (path_used_effective d path b Hd) in Hlog. eauto 6.
Qed.

(** [delete] asks for the base URL followed by its argument, and for the
    base URL alone when the argument is missing or falsy, whatever the
    stored path. *)
Lemma delete_url (this : loc) (b b1 b2 : builder) (w : world) (path : jsval) :
  heap w !! this = Some b ->
  header_stage b b1 -> body_stage b1 b2 ->
  exists s w' calls init,
    delete this path w = (Normal (Promise s), w')
    /\ log w' = (log w ++ calls
                   ++ [TransportCalled
                         (request_url b (if truthy path then path else VUndefined))
                         init])%list.
Proof.
  intros Hb H1 H2.
  destruct (dispatch_transport_call D_delete this b b1 b2 w path Hb H1 H2)
    as (s & w' & calls & Hrun & Hlog & _).
  eauto 6.
Qed.

(** ** Further properties of the module *)

(** *** The classifier *)

(** X1: of the nine category predicates (the two convenience predicates
    aside, with undefined and null sharing one), exactly one holds of a
    value that is no big integer; of a big integer, whose tag "bigint" no
    predicate tests for, none holds. *)
Theorem typeOf_exactly_one (v : jsval) :
  let t := typeOf v in
  List.length
    (List.filter (fun p : bool => p)
       [isNaN t; isArray t; isSymbol t; isString t; isObject t; isNumber t;
        isBoolean t; isFunction t; isUndefinedOrNull t])
  = match v with
    | VBigInt _ => 0%nat
    | _ => 1%nat
    end.
Proof.
  destruct v as [| |b|n|s|d|f|l|o|z]; try reflexivity.
  destruct n as [|[]|z Hz]; try reflexivity.
  unfold typeOf. cbv zeta. rewrite actualType_number. reflexivity.
Qed.

(** Case analysis on a value, with the classifier evaluated in each case. *)
Ltac by_shape v :=
  destruct v as [| |?|[|[]|? ?]|?|?|?|?|?|?];
  unfold typeOf; cbv zeta; rewrite ?actualType_number; cbn.

(** X2: the classifier tells apart what [typeof] lumps together: null and
    arrays are not objects, and not-a-number is not a number. *)
Theorem typeOf_shapes (v : jsval) :
  (isObject (typeOf v) = true <-> exists props, v = VObject props)
  /\ (isArray (typeOf v) = true <-> exists l, v = VArray l)
  /\ (isNumber (typeOf v) = true <-> exists n, v = VNumber n /\ n <> NaN)
  /\ (isNaN (typeOf v) = true <-> v = VNumber NaN)
  /\ (isBoolean (typeOf v) = true <-> exists b, v = VBool b)
  /\ (isSymbol (typeOf v) = true <-> exists d, v = VSymbol d)
  /\ isNotString (typeOf v) = negb (isString (typeOf v)).
Proof.
  split; [|split; [|split; [|split; [|split; [|split]]]]].
  - split; [|intros [x ->]; reflexivity].
    by_shape v; intros H; try discriminate H; eauto.
  - split; [|intros [x ->]; reflexivity].
    by_shape v; intros H; try discriminate H; eauto.
  - split.
    + by_shape v; intros H; try discriminate H;
        eexists; (split; [reflexivity | discriminate]).
    + intros (n & -> & Hn). destruct n as [|[]|z Hz]; [contradiction | reflexivity..|].
      unfold typeOf. cbv zeta. rewrite actualType_number. reflexivity.
  - split; [|intros ->; reflexivity].
    by_shape v; intros H; try discriminate H; reflexivity.
  - split; [|intros [x ->]; reflexivity].
    by_shape v; intros H; try discriminate H; eauto.
  - split; [|intros [x ->]; reflexivity].
    by_shape v; intros H; try discriminate H; eauto.
  - reflexivity.
Qed.

(** *** The factory *)

(** X3: the factory refuses, with a TypeError, exactly a base URL that is
    not a string, whatever the version; and each call of the binder it
    returns makes an instance at an address that was not in use, with no
    header, no body and no middleware, leaving the instances already there
    and the log as they were. *)
Theorem requestFactory_fresh (baseURL apiVersion : jsval) :
  ((forall s, baseURL <> VString s) ->
     requestFactory baseURL apiVersion = Throw TypeError)
  /\ (forall s, baseURL = VString s ->
        exists bind_path,
          requestFactory baseURL apiVersion = Normal bind_path
          /\ forall URI w,
               exists this w',
                 bind_path URI w = (Normal this, w')
                 /\ heap w !! this = None
                 /\ heap w' !! this
                    = Some {| baseURL := s; apiVersion := apiVersion; __path := URI;
                              __headers := []; __body := VNull;
                              __middlewares := {| body := VNull; header := VNull |} |}
                 /\ (forall other, other <> this -> heap w' !! other = heap w !! other)
                 /\ log w' = log w).
Proof.
  split.
  - intros Hns. destruct baseURL; try reflexivity. exfalso. eapply Hns. reflexivity.
  - intros s ->. eexists. split; [reflexivity|]. intros URI w.
    do 2 eexists. split; [reflexivity|]. split; [|split; [|split]].
    + apply not_elem_of_dom. apply is_fresh.
    + apply heap_set_obj.
    + intros other Hne. apply heap_set_obj_ne. congruence.
    + reflexivity.
Qed.

(** *** What a fluent call can do *)

Lemma obj_set_Forall (P : string * jsval -> Prop) (k : string) (v : jsval)
    (o : list (string * jsval)) :
  P (k, v) -> List.Forall P o -> List.Forall P (obj_set k v o).
Proof.
  intros Hkv. induction 1 as [|[k' v'] rest Hx Hrest IH]; simpl.
  - constructor; [exact Hkv | constructor].
  - destruct (k' =? k)%string; constructor; assumption.
Qed.

Lemma withHeader_cases (this : loc) (b : builder) (w : world) (key value : jsval) :
  heap w !! this = Some b ->
  (exists e, withHeader this key value w = (Throw e, w))
  \/ (exists k v, key = VString k /\ value = VString v
        /\ withHeader this key value w
           = (Normal this,
              set_obj this (set_headers (obj_set k (VString v) (__headers b)) b) w)).
Proof.
  intros Hb.
  destruct (isNotString (typeOf key) || isNotString (typeOf value)) eqn:E.
  - left. rewrite (withHeader_rejects this w key value E).
    destruct (new_InvalidRequestHeader key value); eauto.
  - right. apply orb_false_elim in E as [Ek Ev].
    rewrite isNotString_negb in Ek, Ev. apply negb_false_iff in Ek, Ev.
    apply isString_iff in Ek as [k ->]. apply isString_iff in Ev as [v ->].
    exists k, v. split; [reflexivity|]. split; [reflexivity|].
    apply withHeader_accepts. exact Hb.
Qed.

Lemma well_formed_set_header (b : builder) (k v : string) :
  well_formed b ->
  well_formed (set_headers (obj_set k (VString v) (__headers b)) b).
Proof.
  intros (Hnd & Hstr & Hbody & Hh & Hbd). unfold well_formed. cbn [__headers __body
    __middlewares set_headers].
  split; [apply obj_set_NoDup; exact Hnd|].
  split; [apply obj_set_Forall; [eexists; reflexivity | exact Hstr]|].
  auto.
Qed.

(** A fluent call on a live instance either throws and writes nothing, or
    returns the instance and replaces its state by one with the same base
    URL, version and path, well formed if it was, and with a body set if
    one was. *)
Lemma mutate_cases (m : mutation) (this : loc) (b : builder) (w : world) :
  heap w !! this = Some b ->
  (exists e, mutate m this w = (Throw e, w))
  \/ (exists b',
        mutate m this w = (Normal this, set_obj this b' w)
        /\ baseURL b' = baseURL b /\ apiVersion b' = apiVersion b
        /\ __path b' = __path b
        /\ (well_formed b -> well_formed b')
        /\ (isUndefinedOrNull (typeOf (__body b)) = false ->
            isUndefinedOrNull (typeOf (__body b')) = false)).
Proof.
  intros Hb.
  assert (Hheader : forall key value,
    (exists e, withHeader this key value w = (Throw e, w))
    \/ (exists b',
          withHeader this key value w = (Normal this, set_obj this b' w)
          /\ baseURL b' = baseURL b /\ apiVersion b' = apiVersion b
          /\ __path b' = __path b
          /\ (well_formed b -> well_formed b')
          /\ (isUndefinedOrNull (typeOf (__body b)) = false ->
              isUndefinedOrNull (typeOf (__body b')) = false))).
  { intros key value.
    destruct (withHeader_cases this b w key value Hb) as [He|(k & v & -> & -> & Hrun)];
      [left; exact He|].
    right. eexists. split; [exact Hrun|].
    split; [reflexivity|]. split; [reflexivity|]. split; [reflexivity|].
    split; [apply well_formed_set_header | auto]. }
  destruct m as [key value|token|token|body|type|config]; cbn [mutate].
  - apply Hheader.
  - apply Hheader.
  - unfold withBearerAuthorization. unfold bind at 1. unfold lift.
    destruct (template [inl "Bearer "; inr token]) as [s|e]; [|left; eauto].
    apply Hheader.
  - unfold withBody. destruct (isUndefinedOrNull (typeOf body)) eqn:E.
    + left. unfold bind, lift, throw. destruct (new_InvalidBody body); eauto.
    + right. exists (set_body body b). unfold bind.
      rewrite (modify_Some this _ b w Hb). split; [reflexivity|].
      split; [reflexivity|]. split; [reflexivity|]. split; [reflexivity|].
      split; [|intros _; exact E].
      intros (Hnd & Hstr & _ & Hh & Hbd). unfold well_formed.
      cbn [__headers __body __middlewares set_body]. auto 6.
  - apply Hheader.
  - unfold withMiddleware. unfold bind at 1. unfold lift.
    destruct (GetV config "header") as [h|e] eqn:Eh; [|left; eauto].
    unfold bind at 1.
    destruct (GetV config "body") as [bd|e] eqn:Ebd.
    2: { destruct config; discriminate. }
    right. eexists. split; [apply register_slots; exact Hb|].
    split; [reflexivity|]. split; [reflexivity|]. split; [reflexivity|].
    split; [|auto].
    intros (Hnd & Hstr & Hbody & Hh & Hbd). unfold well_formed.
    cbn [__headers __body __middlewares set_middlewares header body].
    split; [exact Hnd|]. split; [exact Hstr|]. split; [exact Hbody|]. split.
    + destruct (isFunction (typeOf h)) eqn:E; [|exact Hh].
      right. apply isFunction_iff. exact E.
    + destruct (isFunction (typeOf bd)) eqn:E; [|exact Hbd].
      right. apply isFunction_iff. exact E.
Qed.

(** X4: a fluent call that throws on a live instance has written nothing:
    the world after the throw is the world before it, for each of the six
    mutators and every argument. *)
Theorem mutate_atomic (m : mutation) (this : loc) (b : builder) (w w' : world)
    (e : thrown) :
  heap w !! this = Some b ->
  mutate m this w = (Throw e, w') ->
  w' = w.
Proof.
  intros Hb Hrun.
  destruct (mutate_cases m this b w Hb) as [[e' He]|(b' & Hb' & _)]; congruence.
Qed.

(** X5: a fluent call that returns on a live instance returns that very
    instance, makes no call and touches no other instance; and it never
    changes the base URL, the version or the default path. *)
Theorem mutate_frame (m : mutation) (this : loc) (b : builder) (w w' : world)
    (r : loc) :
  heap w !! this = Some b ->
  mutate m this w = (Normal r, w') ->
  r = this
  /\ log w' = log w
  /\ (forall other, other <> this -> heap w' !! other = heap w !! other)
  /\ exists b', heap w' !! this = Some b'
       /\ baseURL b' = baseURL b /\ apiVersion b' = apiVersion b
       /\ __path b' = __path b.
Proof.
  intros Hb Hrun.
  destruct (mutate_cases m this b w Hb)
    as [[e' He]|(b' & Hb' & Hu & Hv & Hp & _)]; [congruence|].
  rewrite Hb' in Hrun. injection Hrun as <- <-.
  split; [reflexivity|]. split; [reflexivity|]. split.
  - intros other Hne. apply heap_set_obj_ne. congruence.
  - exists b'. split; [apply heap_set_obj | auto].
Qed.

(** *** Chains of fluent calls *)

Lemma chain_preserves (ms : list mutation) (this : loc) (b : builder) (w : world) :
  heap w !! this = Some b ->
  exists b',
    heap (chain ms this w) !! this = Some b'
    /\ baseURL b' = baseURL b /\ apiVersion b' = apiVersion b /\ __path b' = __path b
    /\ (well_formed b -> well_formed b')
    /\ (isUndefinedOrNull (typeOf (__body b)) = false ->
        isUndefinedOrNull (typeOf (__body b')) = false)
    /\ log (chain ms this w) = log w
    /\ forall other, other <> this -> heap (chain ms this w) !! other = heap w !! other.
Proof.
  revert b w. induction ms as [|m rest IH]; intros b w Hb; cbn [chain].
  - exists b. auto 10.
  - destruct (mutate_cases m this b w Hb)
      as [[e He]|(b1 & Hrun & Hu & Hv & Hp & Hwf & Hset)].
    + rewrite He. cbn [snd]. apply IH. exact Hb.
    + rewrite Hrun. cbn [snd].
      destruct (IH b1 (set_obj this b1 w) (heap_set_obj this b1 w))
        as (b' & Hb' & Hu' & Hv' & Hp' & Hwf' & Hset' & Hlog & Hother).
      exists b'. split; [exact Hb'|].
      split; [congruence|]. split; [congruence|]. split; [congruence|].
      split; [auto|]. split; [auto|]. split; [exact Hlog|].
      intros other Hne. rewrite (Hother other Hne).
      apply heap_set_obj_ne. congruence.
Qed.

Lemma bind_URI_eval (base : string) (v URI : jsval) (w w1 : world) (this : loc) :
  bind_URI base v URI w = (Normal this, w1) ->
  heap w !! this = None
  /\ w1 = set_obj this
            {| baseURL := base; apiVersion := v; __path := URI; __headers := [];
               __body := VNull;
               __middlewares := {| body := VNull; header := VNull |} |} w.
Proof.
  unfold bind_URI. intros [= <- <-]. split; [|reflexivity].
  apply not_elem_of_dom. apply is_fresh.
Qed.

(** X6: whatever fluent calls a client makes on an instance it got from the
    binder, and whether or not it catches the ones that throw, the header
    object maps distinct keys to strings, the body is null or neither null
    nor undefined, each middleware slot holds null or a function, the base
    URL, version and path are the ones the instance was made with, and no
    call has left the module. *)
Theorem chain_from_binder (base : string) (v URI : jsval) (w w1 : world) (this : loc)
    (ms : list mutation) :
  bind_URI base v URI w = (Normal this, w1) ->
  exists b,
    heap (chain ms this w1) !! this = Some b
    /\ well_formed b
    /\ baseURL b = base /\ apiVersion b = v /\ __path b = URI
    /\ log (chain ms this w1) = log w.
Proof.
  intros Hbind. apply bind_URI_eval in Hbind as [_ ->].
  match goal with |- context [set_obj this ?x w] => set (b0 := x) end.
  destruct (chain_preserves ms this b0 (set_obj this b0 w) (heap_set_obj this b0 w))
    as (b & Hb & Hu & Hv & Hp & Hwf & _ & Hlog & _).
  exists b. split; [exact Hb|]. split.
  - apply Hwf. unfold well_formed, slot_ok. cbn.
    split; [constructor|]. split; [constructor|]. auto.
  - auto.
Qed.

(** X7: two instances made by the same binder live at different addresses,
    and no chain of fluent calls on one of them changes the other. *)
Theorem instances_independent (base : string) (v URI1 URI2 : jsval)
    (w w1 w2 : world) (l1 l2 : loc) (ms : list mutation) :
  bind_URI base v URI1 w = (Normal l1, w1) ->
  bind_URI base v URI2 w1 = (Normal l2, w2) ->
  l1 <> l2
  /\ heap (chain ms l1 w2) !! l2 = heap w2 !! l2
  /\ heap (chain ms l2 w2) !! l1 = heap w2 !! l1.
Proof.
  intros H1 H2.
  apply bind_URI_eval in H1 as [_ ->]. apply bind_URI_eval in H2 as [Hfresh ->].
  assert (Hne : l1 <> l2).
  { intros <-. rewrite heap_set_obj in Hfresh. discriminate. }
  split; [exact Hne|]. split.
  - assert (Hl1 : exists b, heap (set_obj l2
        {| baseURL := base; apiVersion := v; __path := URI2; __headers := [];
           __body := VNull; __middlewares := {| body := VNull; header := VNull |} |}
        (set_obj l1
           {| baseURL := base; apiVersion := v; __path := URI1; __headers := [];
              __body := VNull; __middlewares := {| body := VNull; header := VNull |} |}
           w)) !! l1 = Some b).
    { eexists. rewrite heap_set_obj_ne by congruence. apply heap_set_obj. }
    destruct Hl1 as [b Hb].
    destruct (chain_preserves ms l1 b _ Hb) as (_ & _ & _ & _ & _ & _ & _ & _ & Ho).
    apply Ho. congruence.
  - match goal with |- context [chain ms l2 (set_obj l2 ?x ?y)] =>
      destruct (chain_preserves ms l2 x (set_obj l2 x y) (heap_set_obj l2 x y))
        as (_ & _ & _ & _ & _ & _ & _ & _ & Ho)
    end.
    apply Ho. exact Hne.
Qed.

(** *** Headers *)

(** X8: after a header is written with two strings, the instance reads
    back that value under that key and every other header as before, and
    its body and middlewares are not touched. *)
Theorem withHeader_read_back (this : loc) (b : builder) (w : world) (k v : string) :
  heap w !! this = Some b ->
  exists w' b',
    withHeader this (VString k) (VString v) w = (Normal this, w')
    /\ heap w' !! this = Some b'
    /\ obj_lookup k (__headers b') = Some (VString v)
    /\ (forall k', k' <> k -> obj_lookup k' (__headers b') = obj_lookup k' (__headers b))
    /\ __body b' = __body b
    /\ __middlewares b' = __middlewares b.
Proof.
  intros Hb. rewrite (withHeader_accepts this b w k v Hb).
  do 2 eexists. split; [reflexivity|]. split; [apply heap_set_obj|].
  cbn [__headers __body __middlewares set_headers].
  split; [apply obj_lookup_set_eq|]. split; [|auto].
  intros k' Hne. apply obj_lookup_set_ne. congruence.
Qed.

(** X9: writing the same header twice leaves exactly what writing the
    second value alone leaves. *)
Theorem withHeader_overwrite (this : loc) (b : builder) (w : world) (k v1 v2 : string) :
  heap w !! this = Some b ->
  (r <- withHeader this (VString k) (VString v1) ;;
   withHeader r (VString k) (VString v2)) w
  = withHeader this (VString k) (VString v2) w.
Proof.
  intros Hb. unfold bind at 1.
  rewrite (withHeader_accepts this b w k v1 Hb).
  rewrite (withHeader_accepts this _ _ k v2 (heap_set_obj this _ w)).
  rewrite (withHeader_accepts this b w k v2 Hb).
  cbn [__headers set_headers]. rewrite obj_set_set, set_obj_set_obj.
  reflexivity.
Qed.

(** *** Middleware registration *)

Lemma withMiddleware_object (this : loc) (b : builder) (w : world)
    (props : list (string * jsval)) :
  heap w !! this = Some b ->
  withMiddleware this (VObject props) w
  = (Normal this,
     set_obj this
       (set_middlewares
          {| body := if isFunction (typeOf (obj_get "body" props))
                     then obj_get "body" props else body (__middlewares b);
             header := if isFunction (typeOf (obj_get "header" props))
                       then obj_get "header" props else header (__middlewares b) |}
          b) w).
Proof.
  intros Hb. unfold withMiddleware, GetV. unfold bind at 1 2. unfold lift.
  apply register_slots. exact Hb.
Qed.

(** X10: registering the header slot and then the body slot is registering
    both at once, whatever the two values, and the instance then reads back
    each given value that is a function and the former slot value otherwise;
    and a function registered in a slot, be it the header or the body slot,
    replaces the function registered there before: the instance reads back
    the later one, and the other slot as it was. *)
Theorem withMiddleware_compose (this : loc) (b : builder) (w : world) (h bd : jsval) :
  heap w !! this = Some b ->
  (exists w' b',
     (r <- withMiddleware this (VObject [("header", h)]) ;;
      withMiddleware r (VObject [("body", bd)])) w = (Normal this, w')
     /\ withMiddleware this (VObject [("header", h); ("body", bd)]) w = (Normal this, w')
     /\ heap w' !! this = Some b'
     /\ header (__middlewares b')
        = (if isFunction (typeOf h) then h else header (__middlewares b))
     /\ body (__middlewares b')
        = (if isFunction (typeOf bd) then bd else body (__middlewares b)))
  /\ forall f g,
       (exists w' b',
          (r <- withMiddleware this (VObject [("header", VFunction f)]) ;;
           withMiddleware r (VObject [("header", VFunction g)])) w = (Normal this, w')
          /\ withMiddleware this (VObject [("header", VFunction g)]) w = (Normal this, w')
          /\ heap w' !! this = Some b'
          /\ header (__middlewares b') = VFunction g
          /\ body (__middlewares b') = body (__middlewares b))
       /\ (exists w' b',
             (r <- withMiddleware this (VObject [("body", VFunction f)]) ;;
              withMiddleware r (VObject [("body", VFunction g)])) w = (Normal this, w')
             /\ withMiddleware this (VObject [("body", VFunction g)]) w = (Normal this, w')
             /\ heap w' !! this = Some b'
             /\ body (__middlewares b') = VFunction g
             /\ header (__middlewares b') = header (__middlewares b)).
Proof.
  intros Hb. split; [|intros f g; split]; unfold bind at 1;
    rewrite !(withMiddleware_object this b w _ Hb);
    rewrite (withMiddleware_object this _ _ _ (heap_set_obj this _ w));
    rewrite set_obj_set_obj;
    (do 2 eexists; split; [reflexivity|]; split; [reflexivity|];
     split; [apply heap_set_obj|]; split; reflexivity).
Qed.

(** *** The JSON dispatchers *)

(** X11: [postJSON(path)] is [withContentType('application/json')], which
    cannot fail and overrides any content type set before, followed by
    [post(path)]; and likewise [putJSON] and [put]. *)
Theorem postJSON_putJSON_compose (this : loc) (b : builder) (w : world) (path : jsval) :
  heap w !! this = Some b ->
  exists w1 b1,
    withContentType this (VString "application/json") w = (Normal this, w1)
    /\ heap w1 !! this = Some b1
    /\ obj_lookup "Content-Type" (__headers b1) = Some (VString "application/json")
    /\ (forall k, k <> "Content-Type" ->
          obj_lookup k (__headers b1) = obj_lookup k (__headers b))
    /\ postJSON this path w = post this path w1
    /\ putJSON this path w = put this path w1.
Proof.
  intros Hb.
  exists (set_obj this (prepared D_postJSON b) w), (prepared D_postJSON b).
  assert (Hb1 : heap (set_obj this (prepared D_postJSON b) w) !! this
                = Some (prepared D_postJSON b)) by apply heap_set_obj.
  split; [unfold withContentType; apply withHeader_accepts; exact Hb|].
  split; [exact Hb1|].
  split; [apply obj_lookup_set_eq|].
  split; [intros k Hk; apply obj_lookup_set_ne; congruence|].
  pose proof (dispatch_call D_postJSON this b w path Hb) as HpJ.
  pose proof (dispatch_call D_putJSON this b w path Hb) as HuJ.
  pose proof (dispatch_call D_post this _ _ path Hb1) as Hp.
  pose proof (dispatch_call D_put this _ _ path Hb1) as Hu.
  cbn [dispatch prepared path_used method_of] in HpJ, HuJ, Hp, Hu.
  rewrite set_obj_set_obj in Hp, Hu.
  cbn [prepared __path set_headers] in *.
  split; congruence.
Qed.

(** *** The asynchronous wrapper *)

(** The module-level [withMiddleware], for any continuation, stage by
    stage. *)
Lemma async_withMiddleware_eval (ctx : loc) (b : builder) (w : world) (cb : M returned) :
  heap w !! ctx = Some b ->
  async_withMiddleware ctx cb w
  = let f := header (__middlewares b) in
    let hs := if truthy f then [HeaderMiddlewareCalled f (VObject (__headers b))] else [] in
    match stage_outcome f (VObject (__headers b)) b with
    | (Done _, b1) =>
        let g := body (__middlewares b1) in
        let bs := if truthy g then [BodyMiddlewareCalled g (__body b1)] else [] in
        match stage_outcome g (__body b1) b1 with
        | (Done _, b2) =>
            let '(c, w') :=
              cb {| heap := <[ctx := b2]> (heap w); log := (log w ++ hs ++ bs)%list |} in
            (Normal (Promise (settle_completion c)), w')
        | (Failed e, b2) =>
            (Normal (Promise (Rejected e)),
             {| heap := <[ctx := b2]> (heap w); log := (log w ++ hs ++ bs)%list |})
        | (Suspended, b2) =>
            (Normal (Promise Pending),
             {| heap := <[ctx := b2]> (heap w); log := (log w ++ hs ++ bs)%list |})
        end
    | (Failed e, b1) =>
        (Normal (Promise (Rejected e)),
         {| heap := <[ctx := b1]> (heap w); log := (log w ++ hs)%list |})
    | (Suspended, b1) =>
        (Normal (Promise Pending),
         {| heap := <[ctx := b1]> (heap w); log := (log w ++ hs)%list |})
    end.
Proof.
  intros Hb. unfold async_withMiddleware, async. cbv zeta.
  rewrite abind_eval, (sync_deref ctx b w Hb). cbv beta iota.
  rewrite abind_eval, (guarded_stage ctx b w _ _ _ Hb).
  destruct (stage_outcome (header (__middlewares b)) (VObject (__headers b)) b)
    as [[[]|e|] b1]; cbn [fst snd]; try reflexivity.
  rewrite abind_eval.
  rewrite (sync_deref ctx b1) by (cbn [heap]; apply lookup_insert_eq).
  cbv beta iota.
  rewrite abind_eval, (guarded_stage ctx b1) by (cbn [heap]; apply lookup_insert_eq).
  cbn [heap log]. rewrite insert_insert_eq, <- app_assoc.
  destruct (stage_outcome (body (__middlewares b1)) (__body b1) b1)
    as [[[]|e|] b2]; cbn [fst snd]; try reflexivity.
  unfold sync.
  destruct (cb _) as [[[v|s]|e] w']; reflexivity.
Qed.

(** X12: when both stages complete, the module-level [withMiddleware] runs
    the continuation once, after the middleware calls and on the instance as
    they left it, and the promise it returns settles as what the
    continuation returns: a value fulfils it, a promise is passed on as it
    is, and a throw of the continuation rejects it. *)
Theorem withMiddleware_passes_result (ctx : loc) (b b1 b2 : builder) (w : world)
    (cb : M returned) :
  heap w !! ctx = Some b ->
  header_stage b b1 -> body_stage b1 b2 ->
  exists calls,
    let w2 := {| heap := <[ctx := b2]> (heap w); log := (log w ++ calls)%list |} in
    async_withMiddleware ctx cb w
    = (Normal (Promise (settle_completion (fst (cb w2)))), snd (cb w2))
    /\ forall url init, ~ In (TransportCalled url init) calls.
Proof.
  intros Hb H1 H2. rewrite (async_withMiddleware_eval ctx b w cb Hb). cbv zeta.
  apply header_stage_iff in H1. rewrite H1.
  apply body_stage_iff in H2. rewrite H2.
  exists ((if truthy (header (__middlewares b))
           then [HeaderMiddlewareCalled (header (__middlewares b))
                   (VObject (__headers b))]
           else [])
          ++ (if truthy (body (__middlewares b1))
              then [BodyMiddlewareCalled (body (__middlewares b1)) (__body b1)]
              else []))%list.
  cbv zeta. split.
  - destruct (cb _) as [c w']. reflexivity.
  - intros url init Hin. apply in_app_or in Hin as [Hin|Hin].
    + destruct (truthy (header (__middlewares b))); simpl in Hin;
        [destruct Hin as [H|[]]; discriminate H | exact Hin].
    + destruct (truthy (body (__middlewares b1))); simpl in Hin;
        [destruct Hin as [H|[]]; discriminate H | exact Hin].
Qed.

(** X13: when the two stages do not both complete (a middleware throws, its
    promise rejects or never settles, or a slot holds a truthy value that is
    no function), the continuation is not run: the outcome is the same for
    every continuation, and the promise is not fulfilled. *)
Theorem withMiddleware_skips_continuation (ctx : loc) (b : builder) (w : world) :
  heap w !! ctx = Some b ->
  (forall b1 b2, header_stage b b1 -> ~ body_stage b1 b2) ->
  forall cb cb',
    async_withMiddleware ctx cb w = async_withMiddleware ctx cb' w
    /\ exists s w',
         async_withMiddleware ctx cb w = (Normal (Promise s), w')
         /\ forall v, s <> Fulfilled v.
Proof.
  intros Hb Hno cb cb'.
  rewrite !(async_withMiddleware_eval ctx b w _ Hb). cbv zeta.
  destruct (stage_outcome (header (__middlewares b)) (VObject (__headers b)) b)
    as [[[]|e|] b1] eqn:E1.
  2, 3: split; [reflexivity|]; do 2 eexists; split; [reflexivity | discriminate].
  destruct (stage_outcome (body (__middlewares b1)) (__body b1) b1)
    as [[[]|e|] b2] eqn:E2.
  2, 3: split; [reflexivity|]; do 2 eexists; split; [reflexivity | discriminate].
  exfalso. apply (Hno b1 b2); [apply header_stage_iff | apply body_stage_iff]; assumption.
Qed.

(** *** Dispatch *)

(** X14: with no middleware registered, each of the six dispatchers makes
    exactly one call, to the transport, and returns a promise that settles
    as the transport's result does (a throw of the transport rejects it); the
    instance is left as it was, apart from the content type set by the two
    JSON dispatchers, so that an explicit path is not remembered. *)
Theorem dispatch_without_middleware (d : dispatcher) (this : loc) (b : builder)
    (w : world) (path : jsval) :
  heap w !! this = Some b ->
  truthy (header (__middlewares b)) = false ->
  truthy (body (__middlewares b)) = false ->
  exists url init,
    dispatch d this path w
    = (Normal (Promise (settle (fetch url init))),
       {| heap := <[this := prepared d b]> (heap w);
          log := (log w ++ [TransportCalled url init])%list |})
    /\ __path (prepared d b) = __path b
    /\ __body (prepared d b) = __body b
    /\ __middlewares (prepared d b) = __middlewares b.
Proof.
  intros Hb Hh Hg. rewrite (dispatch_summary_eq d this b w path Hb).
  unfold dispatch_summary, stage_outcome.
  assert (Hmw : __middlewares (prepared d b) = __middlewares b) by (destruct d; reflexivity).
  rewrite Hmw, Hh. cbv iota beta. rewrite Hmw, Hg. cbn [app].
  do 2 eexists. split; [reflexivity|]. destruct d; auto.
Qed.

(** X15: the URL a dispatcher asks for, when both stages complete.  An
    explicit non-empty string path follows the base URL; an explicit path
    that is truthy but no string is dropped, and the base URL is asked for
    alone, not the default path; with no path, or a falsy one, the five
    dispatchers other than [delete] use the default path when it is a string
    and the base URL alone when it is not. *)
Theorem dispatch_url_cases (d : dispatcher) (this : loc) (b b1 b2 : builder)
    (w : world) (path : jsval) :
  heap w !! this = Some b ->
  header_stage (prepared d b) b1 -> body_stage b1 b2 ->
  exists s w' calls url init,
    dispatch d this path w = (Normal (Promise s), w')
    /\ log w' = (log w ++ calls ++ [TransportCalled url init])%list
    /\ (forall p, path = VString p -> p <> "" -> url = baseURL b +:+ p)
    /\ (truthy path = true -> (forall p, path <> VString p) -> url = baseURL b)
    /\ (d <> D_delete -> truthy path = false ->
        forall q, __path b = VString q -> url = baseURL b +:+ q)
    /\ (d <> D_delete -> truthy path = false ->
        (forall q, __path b <> VString q) -> url = baseURL b).
Proof.
  intros Hb H1 H2.
  destruct (dispatch_transport_call d this b b1 b2 w path Hb H1 H2)
    as (s & w' & calls & Hrun & Hlog & _).
  exists s, w', calls. do 2 eexists. split; [exact Hrun|]. split; [exact Hlog|].
  assert (Hexplicit : truthy path = true -> path_used d path b = path).
  { intros Ht. destruct d; unfold path_used, js_or; rewrite Ht; reflexivity. }
  assert (Hdefault : d <> D_delete -> truthy path = false ->
                     path_used d path b = __path b).
  { intros Hd Ht. destruct d; try contradiction;
      unfold path_used, js_or; rewrite Ht; reflexivity. }
  split; [|split; [|split]].
  - intros p -> Hp. rewrite Hexplicit; [reflexivity|].
    cbn. destruct p; [contradiction | reflexivity].
  - intros Ht Hns. rewrite (Hexplicit Ht).
    destruct path; try reflexivity. exfalso. eapply Hns. reflexivity.
  - intros Hd Ht q Hq. rewrite (Hdefault Hd Ht), Hq. reflexivity.
  - intros Hd Ht Hns. rewrite (Hdefault Hd Ht).
    destruct (__path b); try reflexivity. exfalso. eapply Hns. reflexivity.
Qed.

(** X16: an instance fresh from the binder, dispatched with no path by any
    dispatcher but [delete], calls the transport exactly once, for the base
    URL followed by the URI it was bound to when that URI is a string, and
    for the base URL alone otherwise. *)
Theorem fresh_instance_dispatch (d : dispatcher) (base : string) (v URI : jsval)
    (w w1 : world) (this : loc) :
  bind_URI base v URI w = (Normal this, w1) ->
  d <> D_delete ->
  exists s w2 init,
    dispatch d this VUndefined w1 = (Normal (Promise s), w2)
    /\ log w2 = (log w ++ [TransportCalled
                             (match URI with
                              | VString p => base +:+ p
                              | _ => base
                              end) init])%list.
Proof.
  intros Hbind Hd. apply bind_URI_eval in Hbind as [_ ->].
  match goal with |- context [set_obj this ?x w] => set (b0 := x) end.
  rewrite (dispatch_summary_eq d this b0 _ VUndefined (heap_set_obj this b0 w)).
  unfold dispatch_summary, stage_outcome.
  assert (Hmw : __middlewares (prepared d b0) = __middlewares b0)
    by (destruct d; reflexivity).
  assert (Hh : truthy (header (__middlewares b0)) = false) by reflexivity.
  assert (Hg : truthy (body (__middlewares b0)) = false) by reflexivity.
  rewrite Hmw, Hh. cbv iota beta. rewrite Hmw, Hg. cbn [app].
  do 3 eexists. split; [reflexivity|]. cbn [log set_obj].
  destruct d; try contradiction; destruct URI; reflexivity.
Qed.

(** *** Parameters after fluent calls *)

(** X17: after [withContentType(ct)] and [withBody(v)], in either order, for
    a string [ct] and a body [v] that is neither null nor undefined, the
    instance reads back that content type and that body, and
    [_parameters(method)] comes to the same either way: when [ct] starts
    with "application/json" and the serialiser throws on [v], the call
    throws the same; otherwise it returns a record that carries the method,
    the headers and, as its body, what the serialiser returns for [v] under
    a JSON content type, and [v] itself under another. *)
Theorem parameters_after_fluent_calls (this : loc) (b : builder) (w : world)
    (ct : string) (v method : jsval) :
  heap w !! this = Some b ->
  isUndefinedOrNull (typeOf v) = false ->
  let run1 := (r1 <- withContentType this (VString ct) ;;
               r2 <- withBody r1 v ;;
               _parameters r2 method) w in
  let run2 := (r1 <- withBody this v ;;
               r2 <- withContentType r1 (VString ct) ;;
               _parameters r2 method) w in
  run1 = run2
  /\ exists b',
       heap (snd run1) !! this = Some b'
       /\ __body b' = v
       /\ obj_lookup "Content-Type" (__headers b') = Some (VString ct)
       /\ match (if String.prefix "application/json" ct
                 then JSON_stringify v else Normal v) with
          | Normal payload =>
              exists record,
                fst run1 = Normal (VObject record)
                /\ obj_lookup "method" record = Some method
                /\ obj_lookup "headers" record = Some (VObject (__headers b'))
                /\ obj_lookup "body" record = Some payload
          | Throw e => fst run1 = Throw e
          end.
Proof.
  intros Hb Hv.
  set (b1 := set_body v (set_headers (obj_set "Content-Type" (VString ct) (__headers b)) b)).
  assert (Hct : obj_lookup "Content-Type" (__headers b1) = Some (VString ct))
    by apply obj_lookup_set_eq.
  assert (Hrun1 :
    (r1 <- withContentType this (VString ct) ;;
     r2 <- withBody r1 v ;;
     _parameters r2 method) w = _parameters this method (set_obj this b1 w)).
  { unfold bind at 1. unfold withContentType.
    rewrite (withHeader_accepts this b w _ ct Hb).
    unfold bind at 1.
    rewrite (withBody_accepts this _ _ v (heap_set_obj this _ w) Hv).
    rewrite set_obj_set_obj. reflexivity. }
  assert (Hrun2 :
    (r1 <- withBody this v ;;
     r2 <- withContentType r1 (VString ct) ;;
     _parameters r2 method) w = _parameters this method (set_obj this b1 w)).
  { unfold bind at 1. rewrite (withBody_accepts this b w v Hb Hv).
    unfold bind at 1. unfold withContentType.
    rewrite (withHeader_accepts this _ _ _ ct (heap_set_obj this _ w)).
    rewrite set_obj_set_obj. reflexivity. }
  cbv zeta. rewrite Hrun1, Hrun2. split; [reflexivity|].
  rewrite (_parameters_eval this b1 _ method (heap_set_obj this b1 w)).
  rewrite Hct. change (__body b1) with v. rewrite Hv. cbn [negb snd fst].
  exists b1. split; [apply heap_set_obj|]. split; [reflexivity|]. split; [exact Hct|].
  destruct (if String.prefix "application/json" ct then JSON_stringify v else Normal v);
    cbn [cbind]; [|reflexivity].
  eexists. split; [reflexivity|]. split; [reflexivity|]. split; reflexivity.
Qed.

(** *** Error messages *)

(** X18: the message of the header error names both offending values, as
    they print; the message of the body error names the offending body,
    which is undefined or null. *)
Theorem error_messages (this : loc) (w : world) :
  (forall key value k v,
     isNotString (typeOf key) || isNotString (typeOf value) = true ->
     ToString key = Normal k -> ToString value = Normal v ->
     withHeader this key value w
     = (Throw (InvalidRequestHeader
                 ("Invalid Header for the request. Found " +:+ k +:+ "/" +:+ v)), w))
  /\ withBody this VUndefined w
     = (Throw (InvalidBody "Invalid body. Found undefined"), w)
  /\ withBody this VNull w = (Throw (InvalidBody "Invalid body. Found null"), w).
Proof.
  split; [|split; reflexivity].
  intros key value k v E Hk Hv.
  rewrite (withHeader_rejects this w key value E).
  unfold new_InvalidRequestHeader. simpl. rewrite Hk, Hv. simpl.
  rewrite append_empty_r. reflexivity.
Qed.

(** *** Tokens *)

(** X19: [withBearerAuthorization] does not validate its token: any token
    that prints (every value but a symbol, and an array holding one) is
    interpolated as it prints, so that after a call with a missing token
    the instance reads back the header "Bearer undefined", without an
    error, where [withAuthorization] throws on every token that is not a
    string and writes nothing. *)
Theorem withBearerAuthorization_any_token (this : loc) (b : builder) (w : world)
    (token : jsval) :
  heap w !! this = Some b ->
  (forall s, ToString token = Normal s ->
     exists w' b',
       withBearerAuthorization this token w = (Normal this, w')
       /\ heap w' !! this = Some b'
       /\ obj_lookup "Authorization" (__headers b') = Some (VString ("Bearer " +:+ s)))
  /\ (exists w' b',
        withBearerAuthorization this VUndefined w = (Normal this, w')
        /\ heap w' !! this = Some b'
        /\ obj_lookup "Authorization" (__headers b') = Some (VString "Bearer undefined"))
  /\ (isNotString (typeOf token) = true ->
      exists e, withAuthorization this token w = (Throw e, w)).
Proof.
  intros Hb.
  assert (Hany : forall t s, ToString t = Normal s ->
     exists w' b',
       withBearerAuthorization this t w = (Normal this, w')
       /\ heap w' !! this = Some b'
       /\ obj_lookup "Authorization" (__headers b') = Some (VString ("Bearer " +:+ s))).
  { intros t s Hs. rewrite (withBearerAuthorization_prints this b w t s Hb Hs).
    do 2 eexists. split; [reflexivity|]. split; [apply heap_set_obj|].
    apply obj_lookup_set_eq. }
  split; [apply Hany|]. split; [apply (Hany VUndefined "undefined"); reflexivity|].
  intros Hns. unfold withAuthorization.
  rewrite (withHeader_rejects this w (VString "Authorization") token Hns).
  destruct (new_InvalidRequestHeader (VString "Authorization") token); eauto.
Qed.

End Platform.

(** ** The running example, evaluated *)

Example factory_binds_users :
  exists bind_path,
    requestFactory (VString "https://api.x.com") (VString "v1") = Normal bind_path
    /\ bind_path (VString "/users") {| heap := ∅; log := [] |}
       = (Normal 1%positive, example_world).
Proof. eexists. split; [reflexivity|]. vm_compute. reflexivity. Qed.

Example factory_refuses_a_number :
  requestFactory (VNumber (Int 1 eq_refl)) (VString "v1") = Throw TypeError.
Proof. reflexivity. Qed.

Example actualType_examples :
  actualType VNull = "null" /\ actualType (VArray []) = "array"
  /\ actualType (VNumber NaN) = "NaN" /\ actualType (VNumber (Int 0 eq_refl)) = "number"
  /\ actualType VUndefined = "undefined" /\ actualType (VObject []) = "object"
  /\ actualType (VFunction (Closure 0)) = "function".
Proof. repeat split. Qed.

Example ToString_array :
  ToString example_source
    (VArray [VNumber (Int 1 eq_refl); VNull; VString "a"; VArray [VBool true; VUndefined]])
  = Normal "1,,a,true,".
Proof. vm_compute. reflexivity. Qed.

Example ToString_symbol_in_array :
  ToString example_source (VArray [VString "a"; VSymbol "s"]) = Throw TypeError.
Proof. reflexivity. Qed.

Example JSON_stringify_nested :
  example_JSON_stringify
    (VObject [("a", VArray [VNumber (Int (-1) eq_refl); VUndefined; VString "x"]);
              ("f", VFunction (Closure 0)); ("n", VNull)])
  = Normal (VString ("{" +:+ double_quote +:+ "a" +:+ double_quote +:+ ":[-1,null,"
                     +:+ double_quote +:+ "x" +:+ double_quote +:+ "],"
                     +:+ double_quote +:+ "n" +:+ double_quote +:+ ":null}")).
Proof. vm_compute. reflexivity. Qed.

Example JSON_stringify_a1 :
  example_JSON_stringify (VObject [("a", VNumber (Int 1 eq_refl))])
  = Normal (VString text_a1).
Proof. vm_compute. reflexivity. Qed.

Example JSON_stringify_undefined :
  example_JSON_stringify VUndefined = Normal VUndefined
  /\ example_JSON_stringify (VFunction (Closure 0)) = Normal VUndefined.
Proof. split; reflexivity. Qed.

Example JSON_stringify_bigint :
  example_JSON_stringify (VBigInt 10) = Throw TypeError
  /\ example_JSON_stringify (VObject [("a", VArray [VNull; VBigInt 10])])
     = Throw TypeError.
Proof. split; reflexivity. Qed.

Example bigint_is_in_no_category :
  actualType (VBigInt 10) = "bigint"
  /\ isNumber (typeOf (VBigInt 10)) = false
  /\ isUndefinedOrNull (typeOf (VBigInt 10)) = false
  /\ isNotString (typeOf (VBigInt 10)) = true
  /\ ToString example_source (VBigInt 10) = Normal "10".
Proof. repeat split. Qed.

Example string_plus_array :
  string_plus example_source "Bearer " (VArray [VNumber (Int 1 eq_refl); VString "a"])
  = Normal "Bearer 1,a"
  /\ string_plus example_source "Bearer " (VSymbol "t") = Throw TypeError.
Proof. split; vm_compute; reflexivity. Qed.

Example signed_dispatch :
  exists w',
    post example_source example_call example_fetch 1%positive VUndefined
      (world_of signed_users)
    = (Normal (Promise (Fulfilled (VObject [("status", VNumber (Int 200 eq_refl))]))), w')
    /\ log w'
       = [HeaderMiddlewareCalled (VFunction (Closure 0)) (VObject []);
          BodyMiddlewareCalled (VFunction (Closure 1)) VNull;
          TransportCalled "https://api.x.com/users"
            (VFunction (Method 1%positive "_parameters"))]
    /\ (__headers <$> heap w' !! 1%positive)
       = Some [("X-Signature", VString "abc")].
Proof. eexists. split; [vm_compute; reflexivity|]. split; vm_compute; reflexivity. Qed.

Example pending_header_middleware_blocks :
  exists w',
    get example_source example_call example_fetch 1%positive VUndefined
      (world_of (set_middlewares
                   {| body := VFunction (Closure 1); header := VFunction (Closure 9) |}
                   users))
    = (Normal (Promise Pending), w')
    /\ log w' = [HeaderMiddlewareCalled (VFunction (Closure 9)) (VObject [])].
Proof. eexists. split; vm_compute; reflexivity. Qed.

Example postJSON_sets_content_type :
  exists s w',
    postJSON example_source example_call example_fetch 1%positive VUndefined
      (world_of body_only_users) = (Normal (Promise s), w')
    /\ _parameters example_JSON_stringify 1%positive (VString "POST") w'
       = (Normal (VObject
                    [("method", VString "POST");
                     ("headers", VObject [("Content-Type", VString "application/json")]);
                     ("body", VString text_a1)]),
          w').
Proof. do 2 eexists. split; vm_compute; reflexivity. Qed.

(** ** Where the code departs from its specification *)

(** C1, at [get()] on the instance bound to "/users": the transport is
    called once, and its second argument is the function object found in
    property [_parameters], whereas the record assembled by
    [_parameters("GET")] is the object [{method: "GET", headers: {}}]. *)
Theorem get_passes_the_method_object :
  exists s w',
    get example_source example_call example_fetch 1%positive VUndefined example_world
    = (Normal (Promise s), w')
    /\ log w' = [TransportCalled "https://api.x.com/users"
                   (VFunction (Method 1%positive "_parameters"))]
    /\ _parameters example_JSON_stringify 1%positive (VString "GET") w'
       = (Normal (VObject [("method", VString "GET"); ("headers", VObject [])]), w').
Proof. do 2 eexists. split; [vm_compute; reflexivity|]. split; vm_compute; reflexivity. Qed.

(** C2, at [delete()] on the instance bound to "/users": the path falls back
    on the missing property [_path], so the URL is the base URL alone, where
    [get()] on the same instance asks for the base URL followed by
    "/users". *)
Theorem delete_drops_the_default_path :
  log (snd (delete example_source example_call example_fetch 1%positive VUndefined
              example_world))
  = [TransportCalled "https://api.x.com" (VFunction (Method 1%positive "_parameters"))]
  /\ log (snd (get example_source example_call example_fetch 1%positive VUndefined
                 example_world))
     = [TransportCalled "https://api.x.com/users"
          (VFunction (Method 1%positive "_parameters"))].
Proof. split; vm_compute; reflexivity. Qed.

(** ** Instances *)

(** C9, as it stands, at a symbol token: the interpolation yields no string
    but throws a TypeError, and so does the call, which writes nothing. *)
Lemma withBearerAuthorization_symbol_token :
  template example_source [inl "Bearer "; inr (VSymbol "t")] = Throw TypeError
  /\ string_plus example_source "Bearer " (VSymbol "t") = Throw TypeError
  /\ withBearerAuthorization example_source 1%positive (VSymbol "t") example_world
     = (Throw TypeError, example_world).
Proof. split; [reflexivity|]. split; reflexivity. Qed.

(** The token 'xyz' on the running example: the instance reads back the
    header "Bearer xyz". *)
Lemma withBearerAuthorization_spec_witness :
  VString "xyz" = VString "xyz"
  /\ heap example_world !! 1%positive = Some users
  /\ exists w' b',
       withBearerAuthorization example_source 1%positive (VString "xyz") example_world
       = (Normal 1%positive, w')
       /\ heap w' !! 1%positive = Some b'
       /\ obj_lookup "Authorization" (__headers b') = Some (VString "Bearer xyz")
       /\ __headers b' = [("Authorization", VString "Bearer xyz")].
Proof.
  split; [reflexivity|]. split; [reflexivity|].
  destruct (proj1 (proj2 (withBearerAuthorization_spec example_source 1%positive
                            (VString "xyz") example_world))
              "xyz" users eq_refl eq_refl)
    as (w' & b' & Hrun & Hb' & Hauth & _).
  exists w', b'. split; [exact Hrun|]. split; [exact Hb'|]. split; [exact Hauth|].
  injection Hrun as <-. injection Hb' as <-. reflexivity.
Defined.

(** The body 0 is stored and the body undefined refused, on the running
    example. *)
Lemma withBody_spec_witness :
  heap example_world !! 1%positive = Some users
  /\ isUndefinedOrNull (typeOf (VNumber (Int 0 eq_refl))) = false
  /\ (exists w' b',
        withBody example_source 1%positive (VNumber (Int 0 eq_refl)) example_world
        = (Normal 1%positive, w')
        /\ heap w' !! 1%positive = Some b'
        /\ __body b' = VNumber (Int 0 eq_refl))
  /\ isUndefinedOrNull (typeOf VUndefined) = true
  /\ (exists m, withBody example_source 1%positive VUndefined example_world
                = (Throw (InvalidBody m), example_world))
  /\ (__body <$> heap example_world !! 1%positive) = Some VNull.
Proof.
  split; [reflexivity|]. split; [reflexivity|]. split; [|split; [reflexivity|split]].
  - destruct (proj1 (proj2 (withBody_spec example_source 1%positive users
                              example_world (VNumber (Int 0 eq_refl)) eq_refl)) eq_refl)
      as (w' & b' & Hrun & Hb' & Hbody & _).
    exists w', b'. split; [exact Hrun|]. split; [exact Hb' | exact Hbody].
  - exact (proj1 (withBody_spec example_source 1%positive users example_world
                    VUndefined eq_refl) eq_refl).
  - reflexivity.
Defined.

(** A function in the header slot and a string in the body slot, on the
    running example: the first is registered, the second ignored. *)
Lemma withMiddleware_slots_witness :
  heap example_world !! 1%positive = Some users
  /\ exists w' b',
       withMiddleware 1%positive
         (VObject [("header", VFunction (Closure 0)); ("body", VString "not-a-fn")])
         example_world = (Normal 1%positive, w')
       /\ heap w' !! 1%positive = Some b'
       /\ header (__middlewares b') = VFunction (Closure 0)
       /\ body (__middlewares b') = VNull.
Proof.
  split; [reflexivity|].
  destruct (withMiddleware_slots 1%positive users example_world
              [("header", VFunction (Closure 0)); ("body", VString "not-a-fn")] eq_refl)
    as (w' & b' & Hrun & Hb' & Hh & Hbd & _).
  exists w', b'. split; [exact Hrun|]. split; [exact Hb'|]. split; [exact Hh | exact Hbd].
Defined.

(** A configuration without functions is ignored and a missing one is
    refused, on the running example. *)
Lemma withMiddleware_nullish_witness :
  isFunction (typeOf (obj_get "header" [("header", VString "not-a-fn")])) = false
  /\ isFunction (typeOf (obj_get "body" [("header", VString "not-a-fn")])) = false
  /\ withMiddleware 1%positive (VObject [("header", VString "not-a-fn")]) example_world
     = (Normal 1%positive, example_world)
  /\ withMiddleware 1%positive VUndefined example_world = (Throw TypeError, example_world).
Proof.
  split; [reflexivity|]. split; [reflexivity|]. split.
  - exact (proj2 (proj2 (proj2 (withMiddleware_nullish 1%positive example_world)))
             [("header", VString "not-a-fn")] eq_refl eq_refl).
  - exact (proj1 (withMiddleware_nullish 1%positive example_world)).
Defined.

(** A content type that is a string, with a body set: the body is
    included. *)
Lemma string_content_type_included (b : builder) (ct : string) :
  isUndefinedOrNull (typeOf (__body b)) = false ->
  obj_lookup "Content-Type" (__headers b) = Some (VString ct) ->
  isUndefinedOrNull (typeOf (__body b)) = false
  /\ exists c, obj_lookup "Content-Type" (__headers b) = Some c
               /\ isString (typeOf c) = true.
Proof.
  intros Hset Hct. split; [exact Hset|]. exists (VString ct). split; [exact Hct | reflexivity].
Defined.

(** The examples of the parameter record: the body {a: 1} under
    application/json, with or without a charset, is sent as its JSON text;
    under text/plain it is sent as it is; without a content type it is not
    sent at all; and a big integer under application/json is refused by the
    serialiser. *)
Lemma _parameters_body_witness :
  heap (world_of json_users) !! 1%positive = Some json_users
  /\ _parameters example_JSON_stringify 1%positive (VString "POST") (world_of json_users)
     = (Normal (VObject
                  [("method", VString "POST");
                   ("headers", VObject [("Content-Type", VString "application/json")]);
                   ("body", VString text_a1)]),
        world_of json_users)
  /\ _parameters example_JSON_stringify 1%positive (VString "POST")
       (world_of charset_users)
     = (Normal (VObject
                  [("method", VString "POST");
                   ("headers",
                    VObject [("Content-Type", VString "application/json; charset=utf-8")]);
                   ("body", VString text_a1)]),
        world_of charset_users)
  /\ _parameters example_JSON_stringify 1%positive (VString "POST") (world_of plain_users)
     = (Normal (VObject
                  [("method", VString "POST");
                   ("headers", VObject [("Content-Type", VString "text/plain")]);
                   ("body", VObject [("a", VNumber (Int 1 eq_refl))])]),
        world_of plain_users)
  /\ (exists record,
        _parameters example_JSON_stringify 1%positive (VString "POST")
          (world_of body_only_users)
        = (Normal (VObject record), world_of body_only_users)
        /\ obj_lookup "body" record = None)
  /\ _parameters example_JSON_stringify 1%positive (VString "POST")
       (world_of bigint_users)
     = (Throw TypeError, world_of bigint_users).
Proof.
  split; [reflexivity|]. split; [|split; [|split; [|split]]].
  - exact (proj2 (proj2 (_parameters_body example_JSON_stringify 1%positive json_users
                           (world_of json_users) (VString "POST") eq_refl))
             (string_content_type_included json_users "application/json" eq_refl eq_refl)
             "application/json" eq_refl).
  - exact (proj2 (proj2 (_parameters_body example_JSON_stringify 1%positive charset_users
                           (world_of charset_users) (VString "POST") eq_refl))
             (string_content_type_included charset_users
                "application/json; charset=utf-8" eq_refl eq_refl)
             "application/json; charset=utf-8" eq_refl).
  - exact (proj2 (proj2 (_parameters_body example_JSON_stringify 1%positive plain_users
                           (world_of plain_users) (VString "POST") eq_refl))
             (string_content_type_included plain_users "text/plain" eq_refl eq_refl)
             "text/plain" eq_refl).
  - destruct (proj1 (_parameters_body example_JSON_stringify 1%positive body_only_users
                       (world_of body_only_users) (VString "POST") eq_refl))
      as [(record & Hrun & _ & _ & Hiff & _)|(e & ct & _ & _ & Hct & _)];
      [|discriminate Hct].
    exists record. split; [exact Hrun|].
    destruct (obj_lookup "body" record) as [payload|] eqn:Hp; [|reflexivity].
    destruct (proj1 Hiff (ex_intro _ payload eq_refl)) as [_ (ct & Hct & _)].
    discriminate Hct.
  - exact (proj2 (proj2 (_parameters_body example_JSON_stringify 1%positive bigint_users
                           (world_of bigint_users) (VString "POST") eq_refl))
             (string_content_type_included bigint_users "application/json" eq_refl eq_refl)
             "application/json" eq_refl).
Defined.

(** [post()] with both middlewares registered, on the running example. *)
Lemma dispatch_order_witness :
  heap (world_of signed_users) !! 1%positive = Some signed_users
  /\ exists s w' hs bs ts,
       dispatch example_source example_call example_fetch D_post 1%positive VUndefined
         (world_of signed_users) = (Normal (Promise s), w')
       /\ log w' = (hs ++ bs ++ ts)%list
       /\ hs = [HeaderMiddlewareCalled (VFunction (Closure 0)) (VObject [])].
Proof.
  split; [reflexivity|].
  destruct (dispatch_order example_source example_call example_fetch D_post 1%positive
              signed_users (world_of signed_users) VUndefined eq_refl)
    as (s & w' & hs & bs & ts & Hrun & Hlog & Hhs & _).
  exists s, w', hs, bs, ts. split; [exact Hrun|]. split; [exact Hlog | exact Hhs].
Defined.

(** [get()] with a header middleware that rejects, on the running example. *)
Lemma middleware_failure_aborts_witness :
  heap (world_of denied_users) !! 1%positive = Some denied_users
  /\ (truthy (header (__middlewares denied_users)) = true
      /\ fails example_call (header (__middlewares denied_users))
           (VObject (__headers denied_users)) denied_users
           (Raised (VString "denied")))
  /\ exists w' tr,
       dispatch example_source example_call example_fetch D_get 1%positive VUndefined
         (world_of denied_users)
       = (Normal (Promise (Rejected (Raised (VString "denied")))), w')
       /\ log w' = tr
       /\ (forall url init, ~ In (TransportCalled url init) tr)
       /\ (forall f arg, ~ In (BodyMiddlewareCalled f arg) tr).
Proof.
  assert (Hfails : truthy (header (__middlewares denied_users)) = true
      /\ fails example_call (header (__middlewares denied_users))
           (VObject (__headers denied_users)) denied_users
           (Raised (VString "denied"))).
  { split; [reflexivity|]. exists denied_users. right. reflexivity. }
  split; [reflexivity|]. split; [exact Hfails|].
  destruct (middleware_failure_aborts example_source example_call example_fetch D_get
              1%positive denied_users (world_of denied_users) VUndefined
              (Raised (VString "denied")) eq_refl (or_introl Hfails))
    as (w' & tr & Hrun & Hlog & Hnt & Hnb).
  exists w', tr. split; [exact Hrun|]. split; [exact Hlog|].
  split; [exact Hnt | exact (Hnb Hfails)].
Defined.

(** The body null is refused on the running example, and nothing is
    written. *)
Lemma mutate_atomic_witness :
  heap example_world !! 1%positive = Some users
  /\ mutate example_source (M_withBody VNull) 1%positive example_world
     = (Throw (InvalidBody "Invalid body. Found null"), example_world)
  /\ example_world = example_world.
Proof.
  split; [reflexivity|]. split; [reflexivity|].
  exact (mutate_atomic example_source (M_withBody VNull) 1%positive users
           example_world example_world _ eq_refl eq_refl).
Defined.

(** The body 0 is stored on the running example; the call returns the
    instance and keeps its base URL and path. *)
Lemma mutate_frame_witness :
  heap example_world !! 1%positive = Some users
  /\ mutate example_source (M_withBody (VNumber (Int 0 eq_refl))) 1%positive example_world
     = (Normal 1%positive,
        set_obj 1%positive (set_body (VNumber (Int 0 eq_refl)) users) example_world)
  /\ 1%positive = 1%positive
  /\ exists b', heap (set_obj 1%positive (set_body (VNumber (Int 0 eq_refl)) users) example_world)
                  !! 1%positive = Some b'
       /\ baseURL b' = "https://api.x.com" /\ __path b' = VString "/users".
Proof.
  split; [reflexivity|]. split; [reflexivity|].
  destruct (mutate_frame example_source (M_withBody (VNumber (Int 0 eq_refl))) 1%positive users
              example_world _ 1%positive eq_refl eq_refl)
    as (Hr & _ & _ & b' & Hb' & Hu & _ & Hp).
  split; [exact Hr|]. exists b'. split; [exact Hb'|]. split; [exact Hu | exact Hp].
Defined.

(** A chain of four fluent calls on the instance the binder makes in an empty
    world. *)
Lemma chain_from_binder_witness :
  bind_URI "https://api.x.com" (VString "v1") (VString "/users")
    {| heap := ∅; log := [] |} = (Normal 1%positive, example_world)
  /\ exists b,
       heap (chain example_source example_chain 1%positive example_world) !! 1%positive
       = Some b
       /\ well_formed b
       /\ baseURL b = "https://api.x.com" /\ apiVersion b = VString "v1"
       /\ __path b = VString "/users"
       /\ log (chain example_source example_chain 1%positive example_world) = [].
Proof.
  assert (Hbind : bind_URI "https://api.x.com" (VString "v1") (VString "/users")
                    {| heap := ∅; log := [] |} = (Normal 1%positive, example_world))
    by (vm_compute; reflexivity).
  split; [exact Hbind|].
  exact (chain_from_binder example_source _ _ _ _ _ _ example_chain Hbind).
Defined.

(** The instances bound to "/users" and "/orders" by the same binder. *)
Lemma instances_independent_witness :
  bind_URI "https://api.x.com" (VString "v1") (VString "/users")
    {| heap := ∅; log := [] |} = (Normal 1%positive, example_world)
  /\ bind_URI "https://api.x.com" (VString "v1") (VString "/orders") example_world
     = (Normal 2%positive, two_instances)
  /\ 1%positive <> 2%positive
  /\ heap (chain example_source example_chain 1%positive two_instances) !! 2%positive
     = heap two_instances !! 2%positive
  /\ heap (chain example_source example_chain 2%positive two_instances) !! 1%positive
     = heap two_instances !! 1%positive.
Proof.
  assert (H1 : bind_URI "https://api.x.com" (VString "v1") (VString "/users")
                 {| heap := ∅; log := [] |} = (Normal 1%positive, example_world))
    by (vm_compute; reflexivity).
  assert (H2 : bind_URI "https://api.x.com" (VString "v1") (VString "/orders")
                 example_world = (Normal 2%positive, two_instances))
    by (vm_compute; reflexivity).
  split; [exact H1|]. split; [exact H2|].
  exact (instances_independent example_source _ _ _ _ _ _ _ _ _ example_chain H1 H2).
Defined.

(** The header Accept written on the running example. *)
Lemma withHeader_read_back_witness :
  heap example_world !! 1%positive = Some users
  /\ exists w' b',
       withHeader example_source 1%positive (VString "Accept") (VString "text/plain")
         example_world = (Normal 1%positive, w')
       /\ heap w' !! 1%positive = Some b'
       /\ obj_lookup "Accept" (__headers b') = Some (VString "text/plain").
Proof.
  split; [reflexivity|].
  destruct (withHeader_read_back example_source 1%positive users example_world
              "Accept" "text/plain" eq_refl) as (w' & b' & Hrun & Hb' & Hget & _).
  exists w', b'. split; [exact Hrun|]. split; [exact Hb' | exact Hget].
Defined.

(** The header Accept written twice on the running example. *)
Lemma withHeader_overwrite_witness :
  heap example_world !! 1%positive = Some users
  /\ (r <- withHeader example_source 1%positive (VString "Accept") (VString "text/plain") ;;
      withHeader example_source r (VString "Accept") (VString "text/html")) example_world
     = withHeader example_source 1%positive (VString "Accept") (VString "text/html")
         example_world.
Proof.
  split; [reflexivity|].
  exact (withHeader_overwrite example_source 1%positive users example_world
           "Accept" "text/plain" "text/html" eq_refl).
Defined.

(** Closure 0 registered as header middleware and then closure 1 as body
    middleware, on the running example; and closure 1 registered over
    closure 0 in the header slot. *)
Lemma withMiddleware_compose_witness :
  heap example_world !! 1%positive = Some users
  /\ (exists w' b',
        (r <- withMiddleware 1%positive (VObject [("header", VFunction (Closure 0))]) ;;
         withMiddleware r (VObject [("body", VFunction (Closure 1))])) example_world
        = (Normal 1%positive, w')
        /\ heap w' !! 1%positive = Some b'
        /\ header (__middlewares b') = VFunction (Closure 0)
        /\ body (__middlewares b') = VFunction (Closure 1))
  /\ (exists w' b',
        (r <- withMiddleware 1%positive (VObject [("header", VFunction (Closure 0))]) ;;
         withMiddleware r (VObject [("header", VFunction (Closure 1))])) example_world
        = (Normal 1%positive, w')
        /\ heap w' !! 1%positive = Some b'
        /\ header (__middlewares b') = VFunction (Closure 1)
        /\ body (__middlewares b') = VNull).
Proof.
  split; [reflexivity|]. split.
  - destruct (proj1 (withMiddleware_compose 1%positive users example_world
                       (VFunction (Closure 0)) (VFunction (Closure 1)) eq_refl))
      as (w' & b' & Hrun & _ & Hb' & Hh & Hbd).
    exists w', b'. split; [exact Hrun|]. split; [exact Hb'|]. split; [exact Hh | exact Hbd].
  - destruct (proj1 (proj2 (withMiddleware_compose 1%positive users example_world
                              VNull VNull eq_refl) (Closure 0) (Closure 1)))
      as (w' & b' & Hrun & _ & Hb' & Hh & Hbd).
    exists w', b'. split; [exact Hrun|]. split; [exact Hb'|]. split; [exact Hh | exact Hbd].
Defined.

(** [postJSON()] on the instance that has a body but no content type. *)
Lemma postJSON_putJSON_compose_witness :
  heap (world_of body_only_users) !! 1%positive = Some body_only_users
  /\ exists w1,
       withContentType example_source 1%positive (VString "application/json")
         (world_of body_only_users) = (Normal 1%positive, w1)
       /\ postJSON example_source example_call example_fetch 1%positive VUndefined
            (world_of body_only_users)
          = post example_source example_call example_fetch 1%positive VUndefined w1.
Proof.
  split; [reflexivity|].
  destruct (postJSON_putJSON_compose example_source example_call example_fetch
              1%positive body_only_users (world_of body_only_users) VUndefined eq_refl)
    as (w1 & b1 & Hct & _ & _ & _ & Hpost & _).
  exists w1. split; [exact Hct | exact Hpost].
Defined.

(** The module-level wrapper around a continuation that returns null, with
    both middlewares of the running example registered. *)
Lemma withMiddleware_passes_result_witness :
  let signed :=
    set_headers (obj_set "X-Signature" (VString "abc") (__headers signed_users))
      signed_users in
  heap (world_of signed_users) !! 1%positive = Some signed_users
  /\ header_stage example_call signed_users signed
  /\ body_stage example_call signed signed
  /\ exists w',
       async_withMiddleware example_call 1%positive (ret (Plain VNull))
         (world_of signed_users)
       = (Normal (Promise (Fulfilled VNull)), w').
Proof.
  intros signed.
  assert (H1 : header_stage example_call signed_users signed).
  { right. split; [reflexivity|]. exists (Closure 0), (Promise (Fulfilled VUndefined)).
    split; [reflexivity|]. split; [reflexivity | exact I]. }
  assert (H2 : body_stage example_call signed signed).
  { right. split; [reflexivity|]. exists (Closure 1), (Plain VUndefined).
    split; [reflexivity|]. split; [reflexivity | exact I]. }
  split; [reflexivity|]. split; [exact H1|]. split; [exact H2|].
  destruct (withMiddleware_passes_result example_call 1%positive signed_users signed
              signed (world_of signed_users) (ret (Plain VNull)) eq_refl H1 H2)
    as (calls & Hrun & _).
  eexists. exact Hrun.
Defined.

(** The module-level wrapper with a header middleware that rejects: the two
    continuations are not told apart. *)
Lemma withMiddleware_skips_continuation_witness :
  heap (world_of denied_users) !! 1%positive = Some denied_users
  /\ (forall b1 b2, header_stage example_call denied_users b1 ->
                    ~ body_stage example_call b1 b2)
  /\ async_withMiddleware example_call 1%positive (ret (Plain VNull))
       (world_of denied_users)
     = async_withMiddleware example_call 1%positive (throw TypeError)
         (world_of denied_users).
Proof.
  assert (Hno : forall b1 b2, header_stage example_call denied_users b1 ->
                              ~ body_stage example_call b1 b2).
  { intros b1 b2 [[Hf _]|[_ (fr & x & Heq & Hcall & Hres)]] _; [discriminate Hf|].
    injection Heq as <-. injection Hcall as <- _. exact Hres. }
  split; [reflexivity|]. split; [exact Hno|].
  exact (proj1 (withMiddleware_skips_continuation example_call 1%positive denied_users
                  (world_of denied_users) eq_refl Hno
                  (ret (Plain VNull)) (throw TypeError))).
Defined.

(** [put('/users/7')] on the running example, no middleware registered. *)
Lemma dispatch_without_middleware_witness :
  heap example_world !! 1%positive = Some users
  /\ truthy (header (__middlewares users)) = false
  /\ truthy (body (__middlewares users)) = false
  /\ exists url init,
       dispatch example_source example_call example_fetch D_put 1%positive
         (VString "/users/7") example_world
       = (Normal (Promise (settle (example_fetch url init))),
          {| heap := <[1%positive := users]> (heap example_world);
             log := [TransportCalled url init] |}).
Proof.
  split; [reflexivity|]. split; [reflexivity|]. split; [reflexivity|].
  destruct (dispatch_without_middleware example_source example_call example_fetch D_put
              1%positive users example_world (VString "/users/7")
              eq_refl eq_refl eq_refl) as (url & init & Hrun & _).
  exists url, init. exact Hrun.
Defined.

(** [get(5)] on the running example: the number is dropped and the base URL
    is asked for alone. *)
Lemma dispatch_url_cases_witness :
  heap example_world !! 1%positive = Some users
  /\ header_stage example_call (prepared D_get users) users
  /\ body_stage example_call users users
  /\ exists s w' calls init,
       dispatch example_source example_call example_fetch D_get 1%positive
         (VNumber (Int 5 eq_refl)) example_world = (Normal (Promise s), w')
       /\ log w' = (calls ++ [TransportCalled "https://api.x.com" init])%list.
Proof.
  assert (H1 : header_stage example_call (prepared D_get users) users)
    by (left; split; reflexivity).
  assert (H2 : body_stage example_call users users) by (left; split; reflexivity).
  split; [reflexivity|]. split; [exact H1|]. split; [exact H2|].
  destruct (dispatch_url_cases example_source example_call example_fetch D_get
              1%positive users users users example_world (VNumber (Int 5 eq_refl))
              eq_refl H1 H2)
    as (s & w' & calls & url & init & Hrun & Hlog & _ & Hdrop & _).
  exists s, w', calls, init. split; [exact Hrun|].
  rewrite (Hdrop eq_refl ltac:(intros p; discriminate)) in Hlog. exact Hlog.
Defined.

(** [post()] on the instance the binder makes in an empty world. *)
Lemma fresh_instance_dispatch_witness :
  bind_URI "https://api.x.com" (VString "v1") (VString "/users")
    {| heap := ∅; log := [] |} = (Normal 1%positive, example_world)
  /\ D_post <> D_delete
  /\ exists s w2 init,
       dispatch example_source example_call example_fetch D_post 1%positive VUndefined
         example_world = (Normal (Promise s), w2)
       /\ log w2 = [TransportCalled "https://api.x.com/users" init].
Proof.
  assert (Hbind : bind_URI "https://api.x.com" (VString "v1") (VString "/users")
                    {| heap := ∅; log := [] |} = (Normal 1%positive, example_world))
    by (vm_compute; reflexivity).
  assert (Hd : D_post <> D_delete) by discriminate.
  split; [exact Hbind|]. split; [exact Hd|].
  exact (fresh_instance_dispatch example_source example_call example_fetch D_post
           _ _ _ _ _ _ Hbind Hd).
Defined.

(** The body {a: 1} on the running example: under application/json it is
    sent as its JSON text, under text/plain as it is. *)
Lemma parameters_after_fluent_calls_witness :
  heap example_world !! 1%positive = Some users
  /\ isUndefinedOrNull (typeOf (VObject [("a", VNumber (Int 1 eq_refl))])) = false
  /\ (exists record,
        fst ((r1 <- withContentType example_source 1%positive
                      (VString "application/json") ;;
              r2 <- withBody example_source r1 (VObject [("a", VNumber (Int 1 eq_refl))]) ;;
              _parameters example_JSON_stringify r2 (VString "PUT")) example_world)
        = Normal (VObject record)
        /\ obj_lookup "body" record = Some (VString text_a1))
  /\ (exists record,
        fst ((r1 <- withContentType example_source 1%positive (VString "text/plain") ;;
              r2 <- withBody example_source r1 (VObject [("a", VNumber (Int 1 eq_refl))]) ;;
              _parameters example_JSON_stringify r2 (VString "PUT")) example_world)
        = Normal (VObject record)
        /\ obj_lookup "body" record = Some (VObject [("a", VNumber (Int 1 eq_refl))])).
Proof.
  split; [reflexivity|]. split; [reflexivity|]. split.
  - destruct (parameters_after_fluent_calls example_source example_JSON_stringify
                1%positive users example_world "application/json"
                (VObject [("a", VNumber (Int 1 eq_refl))]) (VString "PUT") eq_refl eq_refl)
      as (_ & b' & _ & _ & _ & record & Hrun & _ & _ & Hbody).
    exists record. split; [exact Hrun | exact Hbody].
  - destruct (parameters_after_fluent_calls example_source example_JSON_stringify
                1%positive users example_world "text/plain"
                (VObject [("a", VNumber (Int 1 eq_refl))]) (VString "PUT") eq_refl eq_refl)
      as (_ & b' & _ & _ & _ & record & Hrun & _ & _ & Hbody).
    exists record. split; [exact Hrun | exact Hbody].
Defined.

(** The token 7 on the running example. *)
Lemma withBearerAuthorization_any_token_witness :
  heap example_world !! 1%positive = Some users
  /\ (exists w' b',
        withBearerAuthorization example_source 1%positive (VNumber (Int 7 eq_refl))
          example_world = (Normal 1%positive, w')
        /\ heap w' !! 1%positive = Some b'
        /\ obj_lookup "Authorization" (__headers b') = Some (VString "Bearer 7"))
  /\ exists e, withAuthorization example_source 1%positive (VNumber (Int 7 eq_refl))
                 example_world = (Throw e, example_world).
Proof.
  split; [reflexivity|].
  destruct (withBearerAuthorization_any_token example_source 1%positive users
              example_world (VNumber (Int 7 eq_refl)) eq_refl) as (Hany & _ & Hauth).
  split; [exact (Hany "7" eq_refl) | exact (Hauth eq_refl)].
Defined.

(** A factory for a string base URL, and its binder on the empty world. *)
Lemma requestFactory_fresh_witness :
  VString "https://api.x.com" = VString "https://api.x.com"
  /\ exists bind_path,
       requestFactory (VString "https://api.x.com") (VString "v1") = Normal bind_path
       /\ exists this w',
            bind_path (VString "/users") {| heap := ∅; log := [] |} = (Normal this, w')
            /\ heap w' !! this = Some users.
Proof.
  split; [reflexivity|].
  destruct (proj2 (requestFactory_fresh (VString "https://api.x.com") (VString "v1"))
              "https://api.x.com" eq_refl) as (bind_path & Hf & Hbind).
  exists bind_path. split; [exact Hf|].
  destruct (Hbind (VString "/users") {| heap := ∅; log := [] |})
    as (this & w' & Hrun & _ & Hnew & _).
  exists this, w'. split; [exact Hrun | exact Hnew].
Defined.

(** The number 1 as key and the string "v" as value: the header error names
    both. *)
Lemma error_messages_witness :
  isNotString (typeOf (VNumber (Int 1 eq_refl))) || isNotString (typeOf (VString "v")) = true
  /\ withHeader example_source 1%positive (VNumber (Int 1 eq_refl)) (VString "v") example_world
     = (Throw (InvalidRequestHeader "Invalid Header for the request. Found 1/v"),
        example_world).
Proof.
  split; [reflexivity|].
  exact (proj1 (error_messages example_source 1%positive example_world)
           (VNumber (Int 1 eq_refl)) (VString "v") "1" "v" eq_refl eq_refl eq_refl).
Defined.
